(** * Validation rules of the registration and profile-edit forms

    Shallow embedding of [src/utils/schemas/registrationForm.ts] and of the
    profile-edit schema file that imports [addressSchema] and
    [usernameSchema] from it.  Both files build their rules with the Yup
    schema builder; the part of Yup's validation semantics that the rules
    rely on is modelled in [Module Yup]. *)

From Stdlib Require Import ZArith List String Ascii Bool Lia.
Import ListNotations.

Open Scope string_scope.
Open Scope Z_scope.

(** ** JavaScript values *)

(** A value of static type [A | null | undefined]. *)
Inductive Js (A : Type) : Type :=
| undefined
| null
| val (a : A).

Arguments undefined {A}.
Arguments null {A}.
Arguments val {A} a.

(** [value == null], Yup's [isAbsent]. *)
Definition isAbsent {A} (v : Js A) : bool :=
  match v with
  | val _ => false
  | _ => true
  end.

(** Truthiness of an optional string: [!!value]. *)
Definition truthyString (v : Js string) : bool :=
  match v with
  | val s => negb (String.eqb s "")
  | _ => false
  end.

(** Truthiness of an optional object (dates, arrays, files are always
    truthy). *)
Definition truthyObject {A} (v : Js A) : bool := negb (isAbsent v).

(** [a || b] on optional strings, with a string default. *)
Definition orString (v : Js string) (dflt : string) : string :=
  match v with
  | val s => if String.eqb s "" then dflt else s
  | _ => dflt
  end.

(** A [Date] object: a time value in milliseconds, or the Invalid Date. *)
Inductive JsDate : Type :=
| ValidDate (time : Z)
| InvalidDate.

(** The browser's [File]: only the two attributes the rules read. *)
Module File.
Record t : Type := mk { size : Z; type : string }.
End File.

(** What an upload field can hold besides [null]/[undefined]: a [File], a
    string (the URL of an already stored upload), or any other value, of
    which the rules can only observe a numeric [size] and a string [type]
    property when it has them. *)
Inductive Upload : Type :=
| UFile (f : File.t)
| UString (s : string)
| UOther (size : option Z) (type : option string).

(** [value instanceof File] *)
Definition instanceofFile (u : Upload) : bool :=
  match u with
  | UFile _ => true
  | _ => false
  end.

(** [typeof value === "string"] *)
Definition typeofString (u : Upload) : bool :=
  match u with
  | UString _ => true
  | _ => false
  end.

(** [file.size <= limit]; a missing [size] is [undefined] and compares
    false. *)
Definition sizeLeq (u : Upload) (limit : Z) : bool :=
  match u with
  | UFile f => File.size f <=? limit
  | UString _ => false
  | UOther (Some n) _ => n <=? limit
  | UOther None _ => false
  end.

(** [formats.includes(file.type)] *)
Definition typeIncludedIn (formats : list string) (u : Upload) : bool :=
  match u with
  | UFile f => existsb (String.eqb (File.type f)) formats
  | UString _ => false
  | UOther _ (Some t) => existsb (String.eqb t) formats
  | UOther _ None => false
  end.

(** ** Characters and the regular expressions of the schemas *)

Definition charCode (c : ascii) : Z := Z.of_nat (nat_of_ascii c).

Definition isLower (c : ascii) : bool := (97 <=? charCode c) && (charCode c <=? 122).
Definition isUpper (c : ascii) : bool := (65 <=? charCode c) && (charCode c <=? 90).
Definition isDigit (c : ascii) : bool := (48 <=? charCode c) && (charCode c <=? 57).
Definition isHyphen (c : ascii) : bool := charCode c =? 45.

(** White space removed by [String.prototype.trim], within one-byte
    characters. *)
Definition isSpace (c : ascii) : bool :=
  ((9 <=? charCode c) && (charCode c <=? 13)) || (charCode c =? 32) || (charCode c =? 160).

Definition chars (s : string) : list ascii := list_ascii_of_string s.

(** [/^[a-z\d]{5}$/] *)
Definition re_lowerDigit5 (s : string) : bool :=
  (Nat.eqb (List.length (chars s)) 5) && forallb (fun c => isLower c || isDigit c) (chars s).

(** [/[a-z]/] *)
Definition re_hasLower (s : string) : bool := existsb isLower (chars s).

(** [/\d/] *)
Definition re_hasDigit (s : string) : bool := existsb isDigit (chars s).

(** [/^[A-Za-z0-9-]+$/] *)
Definition re_schoolId (s : string) : bool :=
  negb (Nat.eqb (List.length (chars s)) 0)
  && forallb (fun c => isUpper c || isLower c || isDigit c || isHyphen c) (chars s).

Fixpoint trimStart (l : list ascii) : list ascii :=
  match l with
  | c :: l' => if isSpace c then trimStart l' else l
  | [] => []
  end.

(** [String.prototype.trim] *)
Definition trim (s : string) : string :=
  string_of_list_ascii (rev (trimStart (rev (trimStart (chars s))))).

(** ** The Yup schema builder

    Yup is a dependency of the repository, not part of it.  This module
    models, after Yup 1.x, what [schema.validate(value, {abortEarly: false})]
    reports for one field: the schema's transforms cast the value, the
    internal tests (type, nullability, optionality, black list) run first
    and, when any of them fails, are the only errors; otherwise every test
    added with [.test] and its wrappers runs, in the order of declaration.
    The first error of the list is the one a first-error-per-field form
    layer shows, and the only one reported with [abortEarly: true]. *)
Module Yup.

(** What a test function hands back: [true], a falsy value, or
    [this.createError({message})]. *)
Inductive TestResult : Type :=
| Pass
| Fail
| CreateError (message : string).

Definition ofBool (b : bool) : TestResult := if b then Pass else Fail.

(** An error: the path of the field and the message. *)
Definition ValidationError : Type := (string * string)%type.

Section Schema.
Context {A P : Type}.

Record Test : Type := mkTest {
  test_name : string;
  test_message : string;
  skipAbsent : bool;
  test_fn : Js A -> P -> TestResult
}.

(** A schema after [resolve]: no condition is left.  [nested] validates
    the fields of an object schema (paths relative to the object) and is
    empty for the other types. *)
Record Schema : Type := mkSchema {
  transforms : list (A -> A);
  getDefault : Js A;
  typeCheck : A -> bool;
  typeErrorMessage : string;
  spec_nullable : bool;
  notNullMessage : string;
  spec_optional : bool;
  definedMessage : string;
  blacklist : A -> bool;
  blacklistMessage : string;
  tests : list Test;
  nested : A -> list ValidationError
}.

(** A schema with its [when] conditions, applied in order by
    [resolve]. *)
Record Conditional : Type := mkConditional {
  base : Schema;
  conditions : list (P -> Schema -> Schema)
}.

Definition resolve (c : Conditional) (parent : P) : Schema :=
  fold_left (fun schema condition => condition parent schema) (conditions c) (base c).

Definition always (s : Schema) : Conditional :=
  {| base := s; conditions := [] |}.

(** [_cast]: the transforms run on every value but [undefined], which
    takes the default. *)
Definition cast (s : Schema) (v : Js A) : Js A :=
  match v with
  | undefined => getDefault s
  | null => null
  | val a => val (fold_left (fun x f => f x) (transforms s) a)
  end.

Definition runTest (t : Test) (v : Js A) (parent : P) : list string :=
  if skipAbsent t && isAbsent v then []
  else match test_fn t v parent with
       | Pass => []
       | Fail => [test_message t]
       | CreateError m => [m]
       end.

Definition runTests (ts : list Test) (v : Js A) (parent : P) : list string :=
  flat_map (fun t => runTest t v parent) ts.

(** The internal tests, in the order their keys enter
    [internalTests]: [typeError] and [nullable] in the constructor,
    [optionality] with [required], [blacklist] with [notOneOf]. *)
Definition internalTests (s : Schema) : list Test :=
  [ {| test_name := "typeError"; test_message := typeErrorMessage s; skipAbsent := true;
       test_fn := fun v _ => match v with val a => ofBool (typeCheck s a) | _ => Pass end |};
    {| test_name := "nullable"; test_message := notNullMessage s; skipAbsent := false;
       test_fn := fun v _ => match v with null => ofBool (spec_nullable s) | _ => Pass end |};
    {| test_name := "optionality"; test_message := definedMessage s; skipAbsent := false;
       test_fn := fun v _ => match v with undefined => ofBool (spec_optional s) | _ => Pass end |};
    {| test_name := "notOneOf"; test_message := blacklistMessage s; skipAbsent := false;
       test_fn := fun v _ => match v with val a => ofBool (negb (blacklist s a)) | _ => Pass end |} ].

Definition at_ (path : string) (messages : list string) : list ValidationError :=
  map (fun m => (path, m)) messages.

Definition under (path : string) (errors : list ValidationError) : list ValidationError :=
  map (fun e => (path ++ "." ++ fst e, snd e)) errors.

(** [_validate] on the cast value: nested field errors come before the
    object's own. *)
Definition validateValue (s : Schema) (path : string) (v : Js A) (parent : P)
  : list ValidationError :=
  let own :=
    match runTests (internalTests s) v parent with
    | [] => runTests (tests s) v parent
    | initialErrors => initialErrors
    end in
  match v with
  | val a => under path (nested s a) ++ at_ path own
  | _ => at_ path own
  end.

Definition validate (s : Schema) (path : string) (v : Js A) (parent : P)
  : list ValidationError :=
  validateValue s path (cast s v) parent.

(** Validation of a field of an object: the conditions are resolved
    against the parent first. *)
Definition validateField (c : Conditional) (path : string) (v : Js A) (parent : P)
  : list ValidationError :=
  validate (resolve c parent) path v parent.

(** The message shown for the field. *)
Definition firstError (errors : list ValidationError) : option string :=
  match errors with
  | [] => None
  | e :: _ => Some (snd e)
  end.

(** *** Builders *)

(** [Yup.mixed()]: any type, not nullable, optional. *)
Definition mixed : Schema :=
  {| transforms := [];
     getDefault := undefined;
     typeCheck := fun _ => true;
     typeErrorMessage := "${path} must be a `${type}` type";
     spec_nullable := false;
     notNullMessage := "${path} cannot be null";
     spec_optional := true;
     definedMessage := "${path} must be defined";
     blacklist := fun _ => false;
     blacklistMessage := "${path} must not be one of the following values: ${values}";
     tests := [];
     nested := fun _ => [] |}.

Definition withTests (s : Schema) (ts : list Test) : Schema :=
  {| transforms := transforms s; getDefault := getDefault s;
     typeCheck := typeCheck s; typeErrorMessage := typeErrorMessage s;
     spec_nullable := spec_nullable s; notNullMessage := notNullMessage s;
     spec_optional := spec_optional s; definedMessage := definedMessage s;
     blacklist := blacklist s; blacklistMessage := blacklistMessage s;
     tests := ts; nested := nested s |}.

(** [.nullable()] *)
Definition nullable (s : Schema) : Schema :=
  {| transforms := transforms s; getDefault := getDefault s;
     typeCheck := typeCheck s; typeErrorMessage := typeErrorMessage s;
     spec_nullable := true; notNullMessage := "${path} cannot be null";
     spec_optional := spec_optional s; definedMessage := definedMessage s;
     blacklist := blacklist s; blacklistMessage := blacklistMessage s;
     tests := tests s; nested := nested s |}.

(** [.required(message)] of the base class: [nonNullable(message)] and
    [defined(message)].  An empty array is a defined, non-null value. *)
Definition required (message : string) (s : Schema) : Schema :=
  {| transforms := transforms s; getDefault := getDefault s;
     typeCheck := typeCheck s; typeErrorMessage := typeErrorMessage s;
     spec_nullable := false; notNullMessage := message;
     spec_optional := false; definedMessage := message;
     blacklist := blacklist s; blacklistMessage := blacklistMessage s;
     tests := tests s; nested := nested s |}.

(** [.typeError(message)] *)
Definition typeError (message : string) (s : Schema) : Schema :=
  {| transforms := transforms s; getDefault := getDefault s;
     typeCheck := typeCheck s; typeErrorMessage := message;
     spec_nullable := spec_nullable s; notNullMessage := notNullMessage s;
     spec_optional := spec_optional s; definedMessage := definedMessage s;
     blacklist := blacklist s; blacklistMessage := blacklistMessage s;
     tests := tests s; nested := nested s |}.

(** [.transform(fn)] *)
Definition transform (f : A -> A) (s : Schema) : Schema :=
  {| transforms := transforms s ++ [f]; getDefault := getDefault s;
     typeCheck := typeCheck s; typeErrorMessage := typeErrorMessage s;
     spec_nullable := spec_nullable s; notNullMessage := notNullMessage s;
     spec_optional := spec_optional s; definedMessage := definedMessage s;
     blacklist := blacklist s; blacklistMessage := blacklistMessage s;
     tests := tests s; nested := nested s |}.

(** [.test(name, message, fn)] and [.test({name, test})]: the test is
    appended.  (Yup replaces an earlier test of the same name when it is
    exclusive; the names within each chain below are distinct.) *)
Definition test (name message : string) (fn : Js A -> P -> TestResult) (s : Schema) : Schema :=
  withTests s (tests s ++ [ {| test_name := name; test_message := message;
                               skipAbsent := false; test_fn := fn |} ]).

(** A built-in test wrapper: as [test], with [skipAbsent: true]. *)
Definition testPresent (name message : string) (fn : A -> bool) (s : Schema) : Schema :=
  withTests s (tests s ++ [ {| test_name := name; test_message := message;
                               skipAbsent := true;
                               test_fn := fun v _ => match v with
                                                     | val a => ofBool (fn a)
                                                     | _ => Pass
                                                     end |} ]).

(** [.notOneOf(enums, message)]: the values join the black list and the
    internal test takes the new message. *)
Definition notOneOf (eqb : A -> A -> bool) (enums : list A) (message : string) (s : Schema)
  : Schema :=
  {| transforms := transforms s; getDefault := getDefault s;
     typeCheck := typeCheck s; typeErrorMessage := typeErrorMessage s;
     spec_nullable := spec_nullable s; notNullMessage := notNullMessage s;
     spec_optional := spec_optional s; definedMessage := definedMessage s;
     blacklist := fun a => existsb (eqb a) enums || blacklist s a;
     blacklistMessage := message;
     tests := tests s; nested := nested s |}.

(** [.when(key, {is, then, otherwise})]; a missing branch keeps the
    schema. *)
Definition when {V : Type} (ref : P -> V) (is_ : V -> bool)
           (then_ otherwise : Schema -> Schema) (c : Conditional) : Conditional :=
  {| base := base c;
     conditions := conditions c ++
       [fun parent schema => if is_ (ref parent) then then_ schema else otherwise schema] |}.

(** [.when(key, (values, schema) => ...)]: the builder's result replaces
    the schema. *)
Definition whenFn {V : Type} (ref : P -> V) (builder : V -> Schema -> Schema)
           (c : Conditional) : Conditional :=
  {| base := base c;
     conditions := conditions c ++ [fun parent schema => builder (ref parent) schema] |}.

(** [Yup.object(fields)]: an absent object takes the default built from
    the fields' defaults; [fields] validates each field of the object. *)
Definition object (dflt : A) (fields : A -> list ValidationError) : Schema :=
  {| transforms := [];
     getDefault := val dflt;
     typeCheck := fun _ => true;
     typeErrorMessage := "${path} must be a `object` type";
     spec_nullable := false;
     notNullMessage := "${path} cannot be null";
     spec_optional := true;
     definedMessage := "${path} must be defined";
     blacklist := fun _ => false;
     blacklistMessage := "${path} must not be one of the following values: ${values}";
     tests := [];
     nested := fields |}.

End Schema.

Arguments Test : clear implicits.
Arguments Schema : clear implicits.
Arguments Conditional : clear implicits.

(** [Yup.string()]; values are strings already, so the coercion of the
    cast is the identity. *)
Definition string {P : Type} : Schema String.string P := mixed.

(** [string.required(message)]: the base [required] and a test that the
    string is not empty. *)
Definition string_required {P : Type} (message : String.string) (s : Schema String.string P)
  : Schema String.string P :=
  testPresent "required" message (fun value => negb (Nat.eqb (String.length value) 0))
              (required message s).

(** [string.length(n, message)] *)
Definition length {P : Type} (n : nat) (message : String.string) (s : Schema String.string P)
  : Schema String.string P :=
  testPresent "length" message (fun value => Nat.eqb (String.length value) n) s.

(** [string.min(n, message)] *)
Definition string_min {P : Type} (n : nat) (message : String.string) (s : Schema String.string P)
  : Schema String.string P :=
  testPresent "min" message (fun value => Nat.leb n (String.length value)) s.

(** [string.matches(regex, message)] *)
Definition matches {P : Type} (regex : String.string -> bool) (message : String.string)
           (s : Schema String.string P) : Schema String.string P :=
  testPresent "matches" message regex s.

(** [string.trim()]: a transform, and a test that holds of every cast
    value. *)
Definition string_trim {P : Type} (s : Schema String.string P) : Schema String.string P :=
  testPresent "trim" "${path} must be a trimmed string"
              (fun value => String.eqb value (trim value))
              (transform trim s).

(** [Yup.date()]: the type check refuses the Invalid Date, which is what
    the cast makes of any value it cannot parse. *)
Definition date {P : Type} : Schema JsDate P :=
  {| transforms := [];
     getDefault := undefined;
     typeCheck := fun d => match d with ValidDate _ => true | InvalidDate => false end;
     typeErrorMessage := "${path} must be a `date` type";
     spec_nullable := false;
     notNullMessage := "${path} cannot be null";
     spec_optional := true;
     definedMessage := "${path} must be defined";
     blacklist := fun _ => false;
     blacklistMessage := "${path} must not be one of the following values: ${values}";
     tests := [];
     nested := fun _ => [] |}.

(** [value <= limit] on dates; false when either is invalid. *)
Definition dateLeq (a b : JsDate) : bool :=
  match a, b with
  | ValidDate x, ValidDate y => x <=? y
  | _, _ => false
  end.

(** [date.max(limit, message)] *)
Definition date_max {P : Type} (limit : JsDate) (message : String.string) (s : Schema JsDate P)
  : Schema JsDate P :=
  testPresent "max" message (fun value => dateLeq value limit) s.

(** [date.min(limit, message)] *)
Definition date_min {P : Type} (limit : JsDate) (message : String.string) (s : Schema JsDate P)
  : Schema JsDate P :=
  testPresent "min" message (fun value => dateLeq limit value) s.

(** [Yup.array()] without an element schema. *)
Definition array {E P : Type} : Schema (list E) P := mixed.

End Yup.

(** Method chains read left to right, as in the source. *)
Notation "s |> f" := (f s) (at level 45, left associativity, only parsing).

(** A number as [calculateAge] returns it: an integer or [NaN]. *)
Inductive JsNumber : Type :=
| Num (n : Z)
| NaN.

(** [a < b]; false on [NaN]. *)
Definition numLt (a : JsNumber) (b : Z) : bool :=
  match a with
  | Num n => n <? b
  | NaN => false
  end.

(** [a >= b]; false on [NaN]. *)
Definition numGe (a : JsNumber) (b : Z) : bool :=
  match a with
  | Num n => b <=? n
  | NaN => false
  end.

(** [value === s] for an optional string. *)
Definition strictEq (v : Js string) (s : string) : bool :=
  match v with
  | val x => String.eqb x s
  | _ => false
  end.

(** [[value].toString()]: the [when] builder receives the referenced values
    as an array; an absent element prints as the empty string. *)
Definition valuesToString (v : Js string) : string :=
  match v with
  | val x => x
  | _ => ""
  end.

(** The double quote character, for messages that contain it. *)
Definition dquote : string := String "034"%char EmptyString.

(** ** The patterns of the remaining fields *)

Definition isLetter (c : ascii) : bool := isUpper c || isLower c.

(** The space of the full-name pattern, and the plus sign of the phone
    pattern. *)
Definition isBlank (c : ascii) : bool := charCode c =? 32.

Definition isPlus (c : ascii) : bool := charCode c =? 43.

(** [/^[a-zA-Z]+(?: [a-zA-Z]+)+$/], read from left to right: [inWord] says
    that the character before was a letter, [separators] counts the spaces
    passed so far.  A space is taken only after a letter, and the text must
    end on a letter with at least one space behind it. *)
Fixpoint fullNameFrom (l : list ascii) (inWord : bool) (separators : nat) : bool :=
  match l with
  | [] => inWord && negb (Nat.eqb separators 0)
  | c :: l' =>
      if isLetter c then fullNameFrom l' true separators
      else if isBlank c && inWord then fullNameFrom l' false (S separators)
           else false
  end.

Definition re_fullName (s : string) : bool := fullNameFrom (chars s) false 0.

(** [\d+$] *)
Definition digitsOnly (l : list ascii) : bool :=
  negb (Nat.eqb (List.length l) 0) && forallb isDigit l.

(** [/^\+?\d+$/] *)
Definition re_phone (s : string) : bool :=
  match chars s with
  | c :: l => if isPlus c then digitsOnly l else digitsOnly (c :: l)
  | [] => false
  end.

(** [/[A-Z]+/] *)
Definition re_hasUpper (s : string) : bool := existsb isUpper (chars s).

(** [String.prototype.toUpperCase], on the letters a to z. *)
Definition toUpperCase (s : string) : string :=
  string_of_list_ascii
    (map (fun c => if isLower c then ascii_of_nat (nat_of_ascii c - 32) else c) (chars s)).

(** ** More of the Yup schema builder *)
Module YupMore.

(** [string.max(n, message)] *)
Definition string_max {P : Type} (n : nat) (message : string) (s : Yup.Schema string P)
  : Yup.Schema string P :=
  Yup.testPresent "max" message (fun value => Nat.leb (String.length value) n) s.

(** [.oneOf(enums, message)]: an internal test, as [notOneOf] is, that
    refuses a present value outside [enums] and skips an absent one.  The
    schema record keeps one such test, and a schema here has one of the two
    at most: the white list is kept as the set of the values it refuses. *)
Definition oneOf {A P : Type} (eqb : A -> A -> bool) (enums : list A) (message : string)
           (s : Yup.Schema A P) : Yup.Schema A P :=
  {| Yup.transforms := Yup.transforms s; Yup.getDefault := Yup.getDefault s;
     Yup.typeCheck := Yup.typeCheck s; Yup.typeErrorMessage := Yup.typeErrorMessage s;
     Yup.spec_nullable := Yup.spec_nullable s; Yup.notNullMessage := Yup.notNullMessage s;
     Yup.spec_optional := Yup.spec_optional s; Yup.definedMessage := Yup.definedMessage s;
     Yup.blacklist := fun a => negb (existsb (eqb a) enums);
     Yup.blacklistMessage := message;
     Yup.tests := Yup.tests s; Yup.nested := Yup.nested s |}.

(** [.oneOf([Yup.ref(key)], message)]: the reference is resolved against
    the parent when the field is validated; a present value passes when it
    is the referenced value. *)
Definition oneOfRef {P : Type} (ref : P -> Js string) (message : string)
           (c : Yup.Conditional string P) : Yup.Conditional string P :=
  {| Yup.base := Yup.base c;
     Yup.conditions :=
       (Yup.conditions c ++
        [fun parent schema =>
           {| Yup.transforms := Yup.transforms schema;
              Yup.getDefault := Yup.getDefault schema;
              Yup.typeCheck := Yup.typeCheck schema;
              Yup.typeErrorMessage := Yup.typeErrorMessage schema;
              Yup.spec_nullable := Yup.spec_nullable schema;
              Yup.notNullMessage := Yup.notNullMessage schema;
              Yup.spec_optional := Yup.spec_optional schema;
              Yup.definedMessage := Yup.definedMessage schema;
              Yup.blacklist := fun a => negb (strictEq (ref parent) a);
              Yup.blacklistMessage := message;
              Yup.tests := Yup.tests schema; Yup.nested := Yup.nested schema |}])%list |}.

End YupMore.

(** ** Constants

    The three constants are imported from a constants file that is not
    among the sources. *)

(** Modelled from the spec: [FILE_SIZE_LIMIT] is missing from the sources;
    the spec gives the limit of an upload as 2 MB, taken here in bytes. *)
Definition FILE_SIZE_LIMIT : Z := 2 * 1024 * 1024.

(** Modelled from the spec: [IMAGE_SUPPORTED_FORMATS] is missing from the
    sources; the spec lists JPEG, JPG, GIF and PNG, taken here as the MIME
    types a [File] reports. *)
Definition IMAGE_SUPPORTED_FORMATS : list string :=
  ["image/jpeg"; "image/jpg"; "image/gif"; "image/png"].

(** Modelled from the spec: [GENERAL_SUPPORTED_FORMATS] is missing from the
    sources; the spec lists JPEG, JPG, GIF, PNG, PDF, DOC, DOCX and TXT. *)
Definition GENERAL_SUPPORTED_FORMATS : list string :=
  ["image/jpeg"; "image/jpg"; "image/gif"; "image/png";
   "application/pdf"; "application/msword";
   "application/vnd.openxmlformats-officedocument.wordprocessingml.document";
   "text/plain"].

(** ** Data shared by the two forms *)

Module Address.
Record t : Type := mk {
  addressLine1 : Js string;
  addressLine2 : Js string;
  city : Js string;
  zipCode : Js string
}.
End Address.

Module School.
Record t : Type := mk {
  name : Js string;
  id : Js string;
  proof : Js (list Upload);
  expiry : Js JsDate
}.

(** The default Yup builds for an absent object: every field absent. *)
Definition absent : t :=
  {| name := undefined; id := undefined; proof := undefined; expiry := undefined |}.
End School.

(** [schoolValue.name || schoolValue.id || (schoolValue.proof &&
    schoolValue.proof.length) || schoolValue.expiry], as a truth value. *)
Definition hasData (schoolValue : School.t) : bool :=
  truthyString (School.name schoolValue)
  || truthyString (School.id schoolValue)
  || match School.proof schoolValue with
     | val files => negb (Nat.eqb (List.length files) 0)
     | _ => false
     end
  || truthyObject (School.expiry schoolValue).

(** ** The registration form: [registrationForm.ts]

    Form values are taken as Yup's cast leaves them and as the interface
    types them: text fields hold strings, [dob] and [expiry] hold [Date]
    objects (the Invalid Date for what did not parse), upload fields hold
    files, strings or any other value. *)
Module Registration.

Record registrationFormType : Type := mkForm {
  profilePic : Js Upload;
  fullName : Js string;
  username : Js string;
  email : Js string;
  password : Js string;
  confirmPassword : Js string;
  address : Address.t;
  phone : Js string;
  userType : Js string;
  dob : Js JsDate;
  nationalId : Js string;
  school : Js School.t;
  nationalIdProof : Js (list Upload)
}.

Definition registrationFormInitialValues : registrationFormType :=
  {| profilePic := null;
     fullName := val "";
     username := val "";
     email := val "";
     password := val "";
     confirmPassword := val "";
     address := {| Address.addressLine1 := val ""; Address.addressLine2 := val "";
                   Address.city := val ""; Address.zipCode := val "" |};
     phone := val "";
     userType := val "general";
     dob := null;
     nationalId := val "";
     school := val {| School.name := val ""; School.id := val "";
                      School.proof := null; School.expiry := null |};
     nationalIdProof := null |}.

(** Yup schema for image file upload. *)
Definition imageFileSchema {P : Type} : Yup.Schema Upload P :=
  Yup.mixed
  |> Yup.nullable
  |> Yup.test "fileType" "Not a file"
       (fun value _ =>
          match value with
          | val v => if instanceofFile v then Yup.Pass else Yup.Fail
          | _ => Yup.Pass
          end)
  |> Yup.test "fileSize" "File too large (max 2MB)"
       (fun value _ =>
          match value with
          | val (UFile f) => Yup.ofBool (File.size f <=? FILE_SIZE_LIMIT)
          | val _ => Yup.Fail
          | _ => Yup.Pass
          end)
  |> Yup.test "fileFormat" "Unsupported file format (only JPG, JPEG, GIF, PNG)"
       (fun value _ =>
          match value with
          | val (UFile f) =>
              Yup.ofBool (existsb (String.eqb (File.type f)) IMAGE_SUPPORTED_FORMATS)
          | val _ => Yup.Fail
          | _ => Yup.Pass
          end).

(** Yup schema for proof file upload.  An array, even an empty one, is
    truthy, so [!value] holds of [null] and [undefined] only. *)
Definition proofFileSchema {P : Type} : Yup.Schema (list Upload) P :=
  Yup.array
  |> Yup.nullable
  |> Yup.test "fileType" "Not a file"
       (fun value _ =>
          match value with
          | val files => Yup.ofBool (forallb instanceofFile files)
          | _ => Yup.Pass
          end)
  |> Yup.test "fileSize" "File too large (max 2MB)"
       (fun value _ =>
          match value with
          | val files => Yup.ofBool (forallb (fun file => sizeLeq file FILE_SIZE_LIMIT) files)
          | _ => Yup.Pass
          end)
  |> Yup.test "fileFormat"
       "Unsupported file format (only JPG, JPEG, GIF, PNG, PDF, DOC, DOCX, TXT)"
       (fun value _ =>
          match value with
          | val files => Yup.ofBool (forallb (typeIncludedIn GENERAL_SUPPORTED_FORMATS) files)
          | _ => Yup.Pass
          end).

(** Yup schema for username. *)
Definition usernameSchema {P : Type} : Yup.Schema string P :=
  Yup.string
  |> Yup.string_required "Username is required"
  |> Yup.length 5 "Username must be exactly 5 characters"
  |> Yup.test "is-mixed"
       "Username must contain at least one letter and one digit and only lowercase letters and digits are allowed"
       (fun value _ =>
          match value with
          | val s =>
              if String.eqb s "" then Yup.Fail
              else
                let hasValidChars := re_lowerDigit5 s in
                if negb hasValidChars then Yup.Fail
                else
                  let hasLetter := re_hasLower s in
                  let hasDigit := re_hasDigit s in
                  Yup.ofBool (hasLetter && hasDigit)
          | _ => Yup.Fail
          end).

(** The fields of the object schema that the properties below are about;
    [fullName], [address], [phone], [email], [password], [confirmPassword]
    and [nationalId] are left out. *)
Module Shape.
Record t : Type := mk {
  profilePic : Yup.Conditional Upload registrationFormType;
  username : Yup.Conditional string registrationFormType;
  userType : Yup.Conditional string registrationFormType;
  dob : Yup.Conditional JsDate registrationFormType;
  school : Yup.Conditional School.t registrationFormType;
  nationalIdProof : Yup.Conditional (list Upload) registrationFormType
}.
End Shape.

Section Environment.

(** [calculateAge] is imported from the age calculator, which is not
    among the sources; the rules only compare its result with 60. *)
Variable calculateAge : JsDate -> JsNumber.

(** The value of [new Date()] when the module is evaluated: the bound
    [schoolSchema] keeps for the expiry date. *)
Variable loadTime : Z.

(** Yup schema for school details (re-uses [proofFileSchema]).  The rules
    of its four fields are named so that the properties can refer to
    them. *)
Definition schoolName {P : Type} : Yup.Schema string P :=
  Yup.string
  |> Yup.string_trim
  |> Yup.string_min 2 "School/ University name must be at least 2 characters"
  |> Yup.string_required "School/ University Name is required".

Definition schoolId {P : Type} : Yup.Schema string P :=
  Yup.string
  |> Yup.string_trim
  |> Yup.matches re_schoolId "ID can only contain letters, numbers, and hyphens"
  |> Yup.string_required "School/ University ID is required".

Definition schoolProof {P : Type} : Yup.Schema (list Upload) P :=
  proofFileSchema |> Yup.required "Proof is required".

Definition schoolExpiry {P : Type} : Yup.Schema JsDate P :=
  Yup.date
  |> Yup.required "Expiry date is required"
  |> Yup.typeError "Invalid date"
  |> Yup.date_min (ValidDate loadTime) "Expiry date cannot be in the past".

Definition schoolSchema {P : Type} : Yup.Schema School.t P :=
  Yup.object School.absent
    (fun school =>
       (Yup.validate schoolName "name" (School.name school) school
        ++ Yup.validate schoolId "id" (School.id school) school
        ++ Yup.validate schoolProof "proof" (School.proof school) school
        ++ Yup.validate schoolExpiry "expiry" (School.expiry school) school)%list).

(** [cities] is the list of valid city names; [now] is the value of
    [new Date()] at the call, which the [dob] rule keeps as its bound. *)
Definition createRegistrationValidationSchema (cities : list string) (now : Z) : Shape.t :=
  {| Shape.profilePic := Yup.always imageFileSchema;
     Shape.username := Yup.always usernameSchema;
     Shape.userType :=
       Yup.always
         (Yup.string
          |> Yup.string_required "User type is required"
          |> Yup.test "invalid-user-type" "Invalid user type"
               (fun value _ =>
                  match value with
                  | val s =>
                      if String.eqb s "" then Yup.Fail
                      else if String.eqb s "student" || String.eqb s "general"
                              || String.eqb s "pension"
                           then Yup.Pass
                           else Yup.Fail
                  | _ => Yup.Fail
                  end))
       |> Yup.when dob
            (fun dob => match dob with
                        | val d => numLt (calculateAge d) 60
                        | _ => false
                        end)
            (Yup.notOneOf String.eqb ["pension"] "Age is less than 60 for Pension User.")
            (fun schema => schema)
       |> Yup.when dob
            (fun dob => match dob with
                        | val d => numGe (calculateAge d) 60
                        | _ => false
                        end)
            (Yup.notOneOf String.eqb ["student"; "general"]
               ("Type cannot be " ++ dquote ++ "Student" ++ dquote ++ " or " ++ dquote
                ++ "General" ++ dquote ++ " for an age of 60 or older."))
            (fun schema => schema);
     Shape.dob :=
       Yup.always
         (Yup.date
          |> Yup.required "Date of birth is required"
          |> Yup.typeError "Invalid date"
          |> Yup.date_max (ValidDate now) "Date of birth cannot be in the future");
     Shape.school :=
       Yup.always (Yup.mixed |> Yup.nullable)
       |> Yup.whenFn userType
            (fun userType schema =>
               let isStudent := String.eqb (valuesToString userType) "student" in
               if isStudent
               then schoolSchema |> Yup.required "School details are required"
               else Yup.mixed
                    |> Yup.test "school-conditional" "${path} is invalid"
                         (fun value _ =>
                            match value with
                            | val schoolValue =>
                                if negb (hasData schoolValue) then Yup.Pass
                                else Yup.CreateError
                                       "School details are only allowed for student users"
                            | _ => Yup.Pass
                            end));
     Shape.nationalIdProof :=
       Yup.always
         (proofFileSchema
          |> Yup.nullable
          |> Yup.test "valid-for-pensioners" "National ID Proof is only allowed for pensioners"
               (fun value parent =>
                  match value with
                  | val files =>
                      if Nat.eqb (List.length files) 0 then Yup.Pass
                      else if negb (strictEq (userType parent) "pension")
                           then Yup.CreateError
                                  "National ID Proof is only allowed for pensioners."
                           else Yup.Pass
                  | _ => Yup.Pass
                  end))
       |> Yup.when userType (fun userType => strictEq userType "pension")
            (Yup.required "National ID Proof is required")
            (fun schema => schema) |}.

(** [schema.validateAt(path, values)] for the fields above. *)
Definition validateAt_profilePic (cities : list string) (now : Z) (values : registrationFormType) :=
  Yup.validateField (Shape.profilePic (createRegistrationValidationSchema cities now))
                    "profilePic" (profilePic values) values.

Definition validateAt_userType (cities : list string) (now : Z) (values : registrationFormType) :=
  Yup.validateField (Shape.userType (createRegistrationValidationSchema cities now))
                    "userType" (userType values) values.

Definition validateAt_dob (cities : list string) (now : Z) (values : registrationFormType) :=
  Yup.validateField (Shape.dob (createRegistrationValidationSchema cities now))
                    "dob" (dob values) values.

Definition validateAt_school (cities : list string) (now : Z) (values : registrationFormType) :=
  Yup.validateField (Shape.school (createRegistrationValidationSchema cities now))
                    "school" (school values) values.

Definition validateAt_nationalIdProof (cities : list string) (now : Z) (values : registrationFormType) :=
  Yup.validateField (Shape.nationalIdProof (createRegistrationValidationSchema cities now))
                    "nationalIdProof" (nationalIdProof values) values.

End Environment.

(** *** The remaining fields

    The fields of the object schema that [Shape] leaves out, but for
    [email], whose pattern is Yup's own. *)

(** Yup schema for address.  [optional()] is the default of a schema.  The
    rules of the four fields are named so that the properties can refer to
    them. *)
Definition addressLine1Schema {P : Type} : Yup.Schema string P :=
  Yup.string
  |> Yup.string_trim
  |> Yup.string_required "Address Line 1 is required".

Definition addressLine2Schema {P : Type} : Yup.Schema string P :=
  Yup.string
  |> Yup.string_trim.

Definition citySchema {P : Type} (cities : list string) : Yup.Schema string P :=
  Yup.string
  |> Yup.string_required "City is required"
  |> YupMore.oneOf String.eqb cities "Invalid city selected".

Definition zipCodeSchema {P : Type} : Yup.Schema string P :=
  Yup.string
  |> Yup.string_trim
  |> Yup.string_min 3 "Too short"
  |> YupMore.string_max 10 "Too long"
  |> Yup.string_required "Zip / Postal Code is required".

Definition addressSchema {P : Type} (cities : list string) : Yup.Schema Address.t P :=
  Yup.object
    {| Address.addressLine1 := undefined; Address.addressLine2 := undefined;
       Address.city := undefined; Address.zipCode := undefined |}
    (fun address =>
       (Yup.validate addressLine1Schema "addressLine1" (Address.addressLine1 address) address
        ++ Yup.validate addressLine2Schema "addressLine2" (Address.addressLine2 address) address
        ++ Yup.validate (citySchema cities) "city" (Address.city address) address
        ++ Yup.validate zipCodeSchema "zipCode" (Address.zipCode address) address)%list).

Module Rest.
Record t : Type := mk {
  fullName : Yup.Conditional string registrationFormType;
  address : Yup.Conditional Address.t registrationFormType;
  phone : Yup.Conditional string registrationFormType;
  password : Yup.Conditional string registrationFormType;
  confirmPassword : Yup.Conditional string registrationFormType
}.
End Rest.

(** The fields [fullName], [address], [phone], [password] and
    [confirmPassword] of [createRegistrationValidationSchema].  The three
    [matches] tests of the password share a name and are not exclusive, so
    all three are kept. *)
Definition createRegistrationValidationSchema_rest (cities : list string) : Rest.t :=
  {| Rest.fullName :=
       Yup.always
         (Yup.string
          |> Yup.string_trim
          |> Yup.matches re_fullName
               "Full name must include only letters and contain atleast first and last name"
          |> Yup.string_required "Full Name is required");
     Rest.address := Yup.always (addressSchema cities);
     Rest.phone :=
       Yup.always
         (Yup.string
          |> Yup.string_required "Phone number is required"
          |> Yup.test "phone-number-required" "Phone number is required"
               (fun value _ =>
                  match value with
                  | val s => if String.eqb s "" || String.eqb s "+" then Yup.Fail else Yup.Pass
                  | _ => Yup.Fail
                  end)
          |> Yup.matches re_phone "Phone number can contain only + and numbers");
     Rest.password :=
       Yup.always
         (Yup.string
          |> Yup.string_min 6 "Password must be at least 6 characters"
          |> Yup.matches re_hasLower "Password must contain at least one lowercase letter"
          |> Yup.matches re_hasUpper "Password must contain at least one uppercase letter"
          |> Yup.matches re_hasDigit "Password must contain at least one digit"
          |> Yup.string_required "Password is required");
     Rest.confirmPassword :=
       Yup.always (Yup.string |> Yup.string_required "Confirm Password is required")
       |> YupMore.oneOfRef password "Passwords must match" |}.

Definition validateAt_fullName (cities : list string) (values : registrationFormType) :=
  Yup.validateField (Rest.fullName (createRegistrationValidationSchema_rest cities))
                    "fullName" (fullName values) values.

Definition validateAt_address (cities : list string) (values : registrationFormType) :=
  Yup.validateField (Rest.address (createRegistrationValidationSchema_rest cities))
                    "address" (val (address values)) values.

Definition validateAt_phone (cities : list string) (values : registrationFormType) :=
  Yup.validateField (Rest.phone (createRegistrationValidationSchema_rest cities))
                    "phone" (phone values) values.

Definition validateAt_password (cities : list string) (values : registrationFormType) :=
  Yup.validateField (Rest.password (createRegistrationValidationSchema_rest cities))
                    "password" (password values) values.

Definition validateAt_confirmPassword (cities : list string) (values : registrationFormType) :=
  Yup.validateField (Rest.confirmPassword (createRegistrationValidationSchema_rest cities))
                    "confirmPassword" (confirmPassword values) values.

(** The field [nationalId]: required for a pensioner; for any other user
    type the schema is [nullable().strip()], and a stripped field is left
    out of the cast object, so that its tests see [undefined]. *)
Definition nationalIdSchema (values : registrationFormType)
  : Yup.Schema string registrationFormType * bool :=
  if strictEq (userType values) "pension"
  then (Yup.string |> Yup.string_required "National ID is required for pension users", false)
  else (Yup.string |> Yup.nullable, true).

Definition validateAt_nationalId (values : registrationFormType) :=
  let (schema, strip) := nationalIdSchema values in
  Yup.validate schema "nationalId" (if strip then undefined else nationalId values) values.

End Registration.

(** ** The profile-edit form *)
Module EditProfile.

Record editFormType : Type := mkForm {
  profilePic : Js Upload;
  fullName : Js string;
  username : Js string;
  email : Js string;
  address : Address.t;
  phone : Js string;
  userType : Js string;
  dob : Js JsDate;
  nationalId : Js string;
  school : Js School.t;
  nationalIdProof : Js (list Upload)
}.

Definition editFormInitialValues : editFormType :=
  {| profilePic := null;
     fullName := val "";
     username := val "";
     email := val "";
     address := {| Address.addressLine1 := val ""; Address.addressLine2 := val "";
                   Address.city := val ""; Address.zipCode := val "" |};
     phone := val "";
     userType := val "";
     dob := null;
     nationalId := val "";
     school := val {| School.name := val ""; School.id := val "";
                      School.proof := null; School.expiry := null |};
     nationalIdProof := null |}.

(** Modelled from the spec: the type [Profile] of the stored profile is
    missing from the sources; the spec names its fields.  Every column is
    read as text that may be absent, the two proof columns as lists of
    stored references. *)
Module Profile.
Record t : Type := mk {
  avatar_url : Js string;
  full_name : Js string;
  user_name : Js string;
  email : Js string;
  address_line1 : Js string;
  address_line2 : Js string;
  city : Js string;
  zip_code : Js string;
  phone_number : Js string;
  user_type : Js string;
  date_of_birth : Js string;
  national_id : Js string;
  school_name : Js string;
  school_id : Js string;
  student_proof_url : Js (list string);
  school_expiry : Js string;
  national_id_proof_url : Js (list string)
}.
End Profile.

(** [data.x || null] for a text column shown in an upload field. *)
Definition referenceOrNull (v : Js string) : Js Upload :=
  if truthyString v then match v with val s => val (UString s) | _ => null end else null.

(** [data.x || null] for a column holding a list of references. *)
Definition referencesOrNull (v : Js (list string)) : Js (list Upload) :=
  match v with
  | val urls => val (map UString urls)
  | _ => null
  end.

Section Dates.

(** [new Date(text)], the platform's date parser. *)
Variable newDate : string -> JsDate.

(** [data.x ? new Date(data.x) : null] *)
Definition dateOrNull (v : Js string) : Js JsDate :=
  match v with
  | val s => if String.eqb s "" then null else val (newDate s)
  | _ => null
  end.

(** The object handed to the [setDefaultValues] callback. *)
Definition setDefaultValuesInEditForm (data : Profile.t) (userEmail : string) : editFormType :=
  {| profilePic := referenceOrNull (Profile.avatar_url data);
     fullName := Profile.full_name data;
     username := Profile.user_name data;
     email := val (orString (Profile.email data) userEmail);
     address :=
       {| Address.addressLine1 := val (orString (Profile.address_line1 data) "");
          Address.addressLine2 := val (orString (Profile.address_line2 data) "");
          Address.city := val (orString (Profile.city data) "");
          Address.zipCode := val (orString (Profile.zip_code data) "") |};
     phone := val (orString (Profile.phone_number data) "");
     userType := val (orString (Profile.user_type data) "general");
     dob := dateOrNull (Profile.date_of_birth data);
     nationalId := val (orString (Profile.national_id data) "");
     school :=
       val {| School.name := val (orString (Profile.school_name data) "");
              School.id := val (orString (Profile.school_id data) "");
              School.proof := referencesOrNull (Profile.student_proof_url data);
              School.expiry := dateOrNull (Profile.school_expiry data) |};
     nationalIdProof := referencesOrNull (Profile.national_id_proof_url data) |}.

End Dates.

(** Yup schema for image file upload. *)
Definition imageFileSchema {P : Type} : Yup.Schema Upload P :=
  Yup.mixed
  |> Yup.nullable
  |> Yup.test "fileSize" "File too large (max 2MB)"
       (fun value _ =>
          match value with
          | val (UFile f) => Yup.ofBool (File.size f <=? FILE_SIZE_LIMIT)
          | val v => if typeofString v then Yup.Pass else Yup.Fail
          | _ => Yup.Pass
          end)
  |> Yup.test "fileFormat" "Unsupported file format (only JPG, JPEG, GIF, PNG)"
       (fun value _ =>
          match value with
          | val (UFile f) =>
              Yup.ofBool (existsb (String.eqb (File.type f)) IMAGE_SUPPORTED_FORMATS)
          | val v => if typeofString v then Yup.Pass else Yup.Fail
          | _ => Yup.Pass
          end).

(** The element tests of the proof-file rule: a file is measured, a
    string passes, anything else fails. *)
Definition withinSizeLimit (item : Upload) : bool :=
  match item with
  | UFile f => File.size f <=? FILE_SIZE_LIMIT
  | _ => typeofString item
  end.

Definition ofSupportedFormat (item : Upload) : bool :=
  match item with
  | UFile f => existsb (String.eqb (File.type f)) GENERAL_SUPPORTED_FORMATS
  | _ => typeofString item
  end.

(** Yup schema for proof file upload. *)
Definition proofFileSchema {P : Type} : Yup.Schema (list Upload) P :=
  Yup.array
  |> Yup.nullable
  |> Yup.test "fileSize" "File too large (max 2MB)"
       (fun value _ =>
          match value with
          | val items => Yup.ofBool (forallb withinSizeLimit items)
          | _ => Yup.Pass
          end)
  |> Yup.test "fileFormat"
       "Unsupported file format (only JPG, JPEG, GIF, PNG, PDF, DOC, DOCX, TXT)"
       (fun value _ =>
          match value with
          | val items => Yup.ofBool (forallb ofSupportedFormat items)
          | _ => Yup.Pass
          end).

Module Shape.
Record t : Type := mk {
  profilePic : Yup.Conditional Upload editFormType;
  username : Yup.Conditional string editFormType;
  userType : Yup.Conditional string editFormType;
  dob : Yup.Conditional JsDate editFormType;
  school : Yup.Conditional School.t editFormType;
  nationalIdProof : Yup.Conditional (list Upload) editFormType
}.
End Shape.

Section Environment.

Variable calculateAge : JsDate -> JsNumber.

(** The value of [new Date()] when the module is evaluated. *)
Variable loadTime : Z.

(** Yup schema for school details (re-uses [proofFileSchema]).  The rules
    of its four fields are named so that the properties can refer to
    them. *)
Definition schoolName {P : Type} : Yup.Schema string P :=
  Yup.string
  |> Yup.string_trim
  |> Yup.string_min 2 "School/ University name must be at least 2 characters"
  |> Yup.string_required "School/ University Name is required".

Definition schoolId {P : Type} : Yup.Schema string P :=
  Yup.string
  |> Yup.string_trim
  |> Yup.matches re_schoolId "ID can only contain letters, numbers, and hyphens"
  |> Yup.string_required "School/ University ID is required".

Definition schoolProof {P : Type} : Yup.Schema (list Upload) P :=
  proofFileSchema |> Yup.required "Proof is required".

Definition schoolExpiry {P : Type} : Yup.Schema JsDate P :=
  Yup.date
  |> Yup.required "Expiry date is required"
  |> Yup.typeError "Invalid date"
  |> Yup.date_min (ValidDate loadTime) "Expiry date cannot be in the past".

Definition schoolSchema {P : Type} : Yup.Schema School.t P :=
  Yup.object School.absent
    (fun school =>
       (Yup.validate schoolName "name" (School.name school) school
        ++ Yup.validate schoolId "id" (School.id school) school
        ++ Yup.validate schoolProof "proof" (School.proof school) school
        ++ Yup.validate schoolExpiry "expiry" (School.expiry school) school)%list).

(** As [createRegistrationValidationSchema], without the password
    fields and with this file's file rules. *)
Definition editProfileFormValidationSchema (cities : list string) (now : Z) : Shape.t :=
  {| Shape.profilePic := Yup.always imageFileSchema;
     Shape.username := Yup.always Registration.usernameSchema;
     Shape.userType :=
       Yup.always
         (Yup.string
          |> Yup.string_required "User type is required"
          |> Yup.test "invalid-user-type" "Invalid user type"
               (fun value _ =>
                  match value with
                  | val s =>
                      if String.eqb s "" then Yup.Fail
                      else if String.eqb s "student" || String.eqb s "general"
                              || String.eqb s "pension"
                           then Yup.Pass
                           else Yup.Fail
                  | _ => Yup.Fail
                  end))
       |> Yup.when dob
            (fun dob => match dob with
                        | val d => numLt (calculateAge d) 60
                        | _ => false
                        end)
            (Yup.notOneOf String.eqb ["pension"] "Age is less than 60 for Pension User.")
            (fun schema => schema)
       |> Yup.when dob
            (fun dob => match dob with
                        | val d => numGe (calculateAge d) 60
                        | _ => false
                        end)
            (Yup.notOneOf String.eqb ["student"; "general"]
               ("Type cannot be " ++ dquote ++ "Student" ++ dquote ++ " or " ++ dquote
                ++ "General" ++ dquote ++ " for an age of 60 or older."))
            (fun schema => schema);
     Shape.dob :=
       Yup.always
         (Yup.date
          |> Yup.required "Date of birth is required"
          |> Yup.typeError "Invalid date"
          |> Yup.date_max (ValidDate now) "Date of birth cannot be in the future");
     Shape.school :=
       Yup.always (Yup.mixed |> Yup.nullable)
       |> Yup.whenFn userType
            (fun userType schema =>
               let isStudent := String.eqb (valuesToString userType) "student" in
               if isStudent
               then schoolSchema |> Yup.required "School details are required"
               else Yup.mixed
                    |> Yup.test "school-conditional" "${path} is invalid"
                         (fun value _ =>
                            match value with
                            | val schoolValue =>
                                if negb (hasData schoolValue) then Yup.Pass
                                else Yup.CreateError
                                       "School details are only allowed for student users"
                            | _ => Yup.Pass
                            end));
     Shape.nationalIdProof :=
       Yup.always
         (proofFileSchema
          |> Yup.nullable
          |> Yup.test "valid-for-pensioners" "National ID Proof is only allowed for pensioners"
               (fun value parent =>
                  match value with
                  | val files =>
                      if Nat.eqb (List.length files) 0 then Yup.Pass
                      else if negb (strictEq (userType parent) "pension")
                           then Yup.CreateError
                                  "National ID Proof is only allowed for pensioners."
                           else Yup.Pass
                  | _ => Yup.Pass
                  end))
       |> Yup.when userType (fun userType => strictEq userType "pension")
            (Yup.required "National ID Proof is required")
            (fun schema => schema) |}.

(** [schema.validateAt(path, values)] for the fields above. *)
Definition validateAt_profilePic (cities : list string) (now : Z) (values : editFormType) :=
  Yup.validateField (Shape.profilePic (editProfileFormValidationSchema cities now))
                    "profilePic" (profilePic values) values.

Definition validateAt_userType (cities : list string) (now : Z) (values : editFormType) :=
  Yup.validateField (Shape.userType (editProfileFormValidationSchema cities now))
                    "userType" (userType values) values.

Definition validateAt_dob (cities : list string) (now : Z) (values : editFormType) :=
  Yup.validateField (Shape.dob (editProfileFormValidationSchema cities now))
                    "dob" (dob values) values.

Definition validateAt_school (cities : list string) (now : Z) (values : editFormType) :=
  Yup.validateField (Shape.school (editProfileFormValidationSchema cities now))
                    "school" (school values) values.

Definition validateAt_nationalIdProof (cities : list string) (now : Z) (values : editFormType) :=
  Yup.validateField (Shape.nationalIdProof (editProfileFormValidationSchema cities now))
                    "nationalIdProof" (nationalIdProof values) values.

End Environment.

(** *** The remaining fields

    The fields of the object schema that [Shape] leaves out, but for
    [email]; [addressSchema] is the one of the registration file. *)
Module Rest.
Record t : Type := mk {
  fullName : Yup.Conditional string editFormType;
  address : Yup.Conditional Address.t editFormType;
  phone : Yup.Conditional string editFormType
}.
End Rest.

Definition editProfileFormValidationSchema_rest (cities : list string) : Rest.t :=
  {| Rest.fullName :=
       Yup.always
         (Yup.string
          |> Yup.string_trim
          |> Yup.matches re_fullName
               "Full name must include only letters and contain atleast first and last name"
          |> Yup.string_required "Full Name is required");
     Rest.address := Yup.always (Registration.addressSchema cities);
     Rest.phone :=
       Yup.always
         (Yup.string
          |> Yup.string_required "Phone number is required"
          |> Yup.test "phone-number-required" "Phone number is required"
               (fun value _ =>
                  match value with
                  | val s => if String.eqb s "" || String.eqb s "+" then Yup.Fail else Yup.Pass
                  | _ => Yup.Fail
                  end)
          |> Yup.matches re_phone "Phone number can contain only + and numbers") |}.

Definition validateAt_fullName (cities : list string) (values : editFormType) :=
  Yup.validateField (Rest.fullName (editProfileFormValidationSchema_rest cities))
                    "fullName" (fullName values) values.

Definition validateAt_address (cities : list string) (values : editFormType) :=
  Yup.validateField (Rest.address (editProfileFormValidationSchema_rest cities))
                    "address" (val (address values)) values.

Definition validateAt_phone (cities : list string) (values : editFormType) :=
  Yup.validateField (Rest.phone (editProfileFormValidationSchema_rest cities))
                    "phone" (phone values) values.

(** The field [nationalId], as in the registration file. *)
Definition nationalIdSchema (values : editFormType) : Yup.Schema string editFormType * bool :=
  if strictEq (userType values) "pension"
  then (Yup.string |> Yup.string_required "National ID is required for pension users", false)
  else (Yup.string |> Yup.nullable, true).

Definition validateAt_nationalId (values : editFormType) :=
  let (schema, strip) := nationalIdSchema values in
  Yup.validate schema "nationalId" (if strip then undefined else nationalId values) values.

End EditProfile.


(** ** The password-reset page

    The submit handler of the [ForgotPassword] component.  The two calls it
    awaits are taken with what they come to; what the handler does is the
    list of its calls and notifications, in order.  The notification calls
    themselves are taken not to throw. *)
Module ForgotPassword.

(** What an awaited call comes to: a value, or an exception with its
    message. *)
Inductive Awaited (A : Type) : Type :=
| Resolved (a : A)
| Rejected (message : Js string).

Arguments Resolved {A} a.
Arguments Rejected {A} message.

Record ExistingUser : Type := mkUser {
  email : Js string;
  provider : Js string
}.

(** The [{ data, error }] of [checkExistingEmail]: the error with its
    message when it is set, the user data otherwise.  The data is an object
    whenever the error is not set, as the comments of the handler say; its
    [email] is null for an address that is not registered. *)
Inductive CheckResult : Type :=
| CheckError (message : Js string)
| CheckData (existingUser : ExistingUser).

(** The [{ data, error }] of [resetPasswordForEmail]. *)
Inductive ResetResult : Type :=
| ResetError (message : Js string)
| ResetSent.

Inductive Effect : Type :=
| CheckExistingEmail (email : string)
| ResetPasswordForEmail (email redirectTo : string)
| ToastError (message : Js string)
| ToastSuccess (message : string)
| SetFieldError (field message : string)
| RouterPush (url : string)
| ConsoleError
| SetSubmitting (isSubmitting : bool).

(** [existingUser.provider?.toUpperCase()] inside a template literal. *)
Definition providerInCapitals (provider : Js string) : string :=
  match provider with
  | val p => toUpperCase p
  | _ => "undefined"
  end.

(** The request for the reset email and what follows it.  The second
    component is the message of an exception that leaves the [try]
    block. *)
Definition requestReset (baseUrl values_email : string) (reset : Awaited ResetResult)
  : list Effect * option (Js string) :=
  match reset with
  | Rejected message =>
      ([ResetPasswordForEmail values_email (baseUrl ++ "/api/reset-password")], Some message)
  | Resolved (ResetError message) =>
      ([ResetPasswordForEmail values_email (baseUrl ++ "/api/reset-password");
        ToastError message], None)
  | Resolved ResetSent =>
      ([ResetPasswordForEmail values_email (baseUrl ++ "/api/reset-password");
        ToastSuccess "Password reset email sent. Please check your inbox!";
        RouterPush "/auth/login"], None)
  end.

(** The [try] block. *)
Definition tryBlock (from : Js string) (baseUrl values_email : string)
           (check : Awaited CheckResult) (reset : Awaited ResetResult)
  : list Effect * option (Js string) :=
  if negb (truthyString from)
  then match check with
       | Rejected message => ([CheckExistingEmail values_email], Some message)
       | Resolved (CheckError message) =>
           ([CheckExistingEmail values_email;
             ToastError
               (val (orString message
                       "Unexpected error while checking registered users. Please try again"))],
            None)
       | Resolved (CheckData existingUser) =>
           if negb (truthyString (email existingUser))
           then ([CheckExistingEmail values_email;
                  SetFieldError "email" "The email is not registered."], None)
           else if negb (strictEq (provider existingUser) "email")
                then ([CheckExistingEmail values_email;
                       SetFieldError "email"
                         ("No password reset for users signed in with "
                          ++ providerInCapitals (provider existingUser))], None)
                else let (effects, thrown) := requestReset baseUrl values_email reset in
                     (CheckExistingEmail values_email :: effects, thrown)
       end
  else requestReset baseUrl values_email reset.

(** [onSubmit]: the [try] block, the [catch] clause when an exception left
    it, and the [finally] clause. *)
Definition onSubmit (from : Js string) (baseUrl values_email : string)
           (check : Awaited CheckResult) (reset : Awaited ResetResult) : list Effect :=
  let (effects, thrown) := tryBlock from baseUrl values_email check reset in
  (effects
   ++ match thrown with
      | Some message =>
          [ConsoleError; ToastError (val (orString message "Error sending reset email"))]
      | None => []
      end
   ++ [SetSubmitting false])%list.

End ForgotPassword.

(** * Statements

    The vocabulary in which the properties of the rules are stated, and the
    values they are run on. *)

Open Scope list_scope.

(** What the username rule asks of a present value, in the words of the
    rule: five characters, each a lowercase letter or a digit, at least one
    of them a letter and at least one a digit. *)
Definition wellFormedUsername (s : string) : Prop :=
  String.length s = 5%nat
  /\ Forall (fun c => isLower c = true \/ isDigit c = true) (chars s)
  /\ Exists (fun c => isLower c = true) (chars s)
  /\ Exists (fun c => isDigit c = true) (chars s).

(** The messages of the cross-field rules. *)
Definition msgPensionUnder60 : string := "Age is less than 60 for Pension User.".

Definition msgOver60 : string :=
  ("Type cannot be " ++ dquote ++ "Student" ++ dquote ++ " or " ++ dquote
   ++ "General" ++ dquote ++ " for an age of 60 or older.")%string.

(** The age rule, for a form type with its [userType] and [dob] fields and
    the schema of its [userType] field. *)
Definition AgeRule {Form : Type} (calculateAge : JsDate -> JsNumber)
           (userType : Form -> Js string) (dob : Form -> Js JsDate)
           (schema : Yup.Conditional string Form) : Prop :=
  forall values : Form,
    let errors := Yup.validateField schema "userType" (userType values) values in
    (* a date of birth that gives an age under 60 *)
    (forall d age, dob values = val d -> calculateAge d = Num age -> age < 60 ->
       (userType values = val "pension" -> Yup.firstError errors = Some msgPensionUnder60)
       /\ (userType values = val "student" -> errors = [])
       /\ (userType values = val "general" -> errors = []))
    (* a date of birth that gives an age of 60 or more *)
    /\ (forall d age, dob values = val d -> calculateAge d = Num age -> 60 <= age ->
          (userType values = val "student" -> Yup.firstError errors = Some msgOver60)
          /\ (userType values = val "general" -> Yup.firstError errors = Some msgOver60)
          /\ (userType values = val "pension" -> errors = []))
    (* no date of birth, or an invalid one for which the age is not a number:
       the schema is the one without the two conditions *)
    /\ (dob values = null \/ dob values = undefined
        \/ (dob values = val InvalidDate /\ calculateAge InvalidDate = NaN) ->
        Yup.resolve schema values = Yup.base schema
        /\ (userType values = val "pension" \/ userType values = val "student"
            \/ userType values = val "general" -> errors = [])).

(** Trimming at the end, as [trim] does it: on the reversed list. *)
Definition trimEnd (l : list ascii) : list ascii := rev (trimStart (rev l)).

(** [item instanceof File] as a proposition. *)
Definition isFile (item : Upload) : Prop := exists f, item = UFile f.

(** A new upload within the limits of a proof: a file of at most
    [FILE_SIZE_LIMIT] bytes whose MIME type is a supported one. *)
Definition validNewFile (item : Upload) : Prop :=
  exists f, item = UFile f
            /\ File.size f <= FILE_SIZE_LIMIT
            /\ In (File.type f) GENERAL_SUPPORTED_FORMATS.

(** What the edit form lets through: a stored reference or a valid new
    upload. *)
Definition validStoredOrNew (item : Upload) : Prop :=
  (exists s, item = UString s) \/ validNewFile item.



(** A field that holds a value; a text that is not empty; a list that is
    not empty. *)
Definition present {A : Type} (v : Js A) : Prop := exists a, v = val a.

Definition presentText (v : Js string) : Prop := exists s, v = val s /\ s <> "".

Definition presentList {A : Type} (v : Js (list A)) : Prop := exists l, v = val l /\ l <> [].

(** A letter, a digit or a hyphen. *)
Definition idChar (c : ascii) : Prop :=
  isUpper c = true \/ isLower c = true \/ isDigit c = true \/ isHyphen c = true.


Definition msgStudentsOnly : string := "School details are only allowed for student users".

(** The empty school block is let through, for a form type with its
    [userType] and [school] fields and the schema of the latter. *)
Definition EmptySchoolRule {Form : Type}
           (userType : Form -> Js string) (school : Form -> Js School.t)
           (schema : Yup.Conditional School.t Form) : Prop :=
  forall (values : Form) (proof : Js (list Upload)),
    userType values <> val "student" ->
    proof = null \/ proof = val [] ->
    school values = val {| School.name := val ""; School.id := val "";
                           School.proof := proof; School.expiry := null |} ->
    Yup.validateField schema "school" (school values) values = [].

(** The rule of [dob], for a form type with its [dob] field and the schema
    of that field as built at the instant [now]. *)
Definition DobRule {Form : Type} (dob : Form -> Js JsDate)
           (schemaBuiltAt : Z -> Yup.Conditional JsDate Form) : Prop :=
  forall (now : Z) (values : Form),
    let errors := Yup.validateField (schemaBuiltAt now) "dob" (dob values) values in
    (dob values = null \/ dob values = undefined ->
     errors = [("dob", "Date of birth is required")])
    /\ (dob values = val InvalidDate -> errors = [("dob", "Invalid date")])
    /\ (forall t, dob values = val (ValidDate t) -> now < t ->
          errors = [("dob", "Date of birth cannot be in the future")])
    /\ (forall t, dob values = val (ValidDate t) -> t <= now -> errors = []).

(** A text column that [||] replaces: absent, null or empty. *)
Definition missingText (v : Js string) : Prop := v = undefined \/ v = null \/ v = val "".

(** A text column copied into a text field, with a default. *)
Definition TextField (column : Js string) (dflt : string) (field : Js string) : Prop :=
  (forall s, column = val s -> s <> "" -> field = val s)
  /\ (missingText column -> field = val dflt).

(** A text column parsed into a date field. *)
Definition DateField (newDate : string -> JsDate) (column : Js string) (field : Js JsDate)
  : Prop :=
  (forall s, column = val s -> s <> "" -> field = val (newDate s))
  /\ (missingText column -> field = null).

(** A text column shown in an upload field as a stored reference. *)
Definition ReferenceField (column : Js string) (field : Js Upload) : Prop :=
  (forall s, column = val s -> s <> "" -> field = val (UString s))
  /\ (missingText column -> field = null).

(** A column of references shown in a proof field. *)
Definition ReferenceListField (column : Js (list string)) (field : Js (list Upload)) : Prop :=
  (forall urls, column = val urls -> field = val (map UString urls))
  /\ (column = null \/ column = undefined -> field = null).

(** ** Example values *)

(** An instant taken as the present, and the length of a year, in
    milliseconds. *)
Definition exampleNow : Z := 1700000000000.

Definition msPerYear : Z := 31557600000.

(** An age calculator to run the rules with: the whole years elapsed at
    [exampleNow], and [NaN] for the Invalid Date. *)
Definition exampleAge (d : JsDate) : JsNumber :=
  match d with
  | ValidDate t => Num ((exampleNow - t) / msPerYear)
  | InvalidDate => NaN
  end.

Definition bornYearsAgo (years : Z) : JsDate := ValidDate (exampleNow - years * msPerYear).

Definition emptySchool : School.t :=
  {| School.name := val ""; School.id := val ""; School.proof := null; School.expiry := null |}.

(** The initial values of the registration form with four fields set. *)
Definition registrationValues (userType : Js string) (dob : Js JsDate) (school : Js School.t)
           (nationalIdProof : Js (list Upload)) : Registration.registrationFormType :=
  {| Registration.profilePic := null;
     Registration.fullName := val "";
     Registration.username := val "";
     Registration.email := val "";
     Registration.password := val "";
     Registration.confirmPassword := val "";
     Registration.address :=
       {| Address.addressLine1 := val ""; Address.addressLine2 := val "";
          Address.city := val ""; Address.zipCode := val "" |};
     Registration.phone := val "";
     Registration.userType := userType;
     Registration.dob := dob;
     Registration.nationalId := val "";
     Registration.school := school;
     Registration.nationalIdProof := nationalIdProof |}.

(** A profile in which every column is null, but for the email. *)
Definition profileWithEmail (email : Js string) : EditProfile.Profile.t :=
  {| EditProfile.Profile.avatar_url := null;
     EditProfile.Profile.full_name := null;
     EditProfile.Profile.user_name := null;
     EditProfile.Profile.email := email;
     EditProfile.Profile.address_line1 := null;
     EditProfile.Profile.address_line2 := null;
     EditProfile.Profile.city := null;
     EditProfile.Profile.zip_code := null;
     EditProfile.Profile.phone_number := null;
     EditProfile.Profile.user_type := null;
     EditProfile.Profile.date_of_birth := null;
     EditProfile.Profile.national_id := null;
     EditProfile.Profile.school_name := null;
     EditProfile.Profile.school_id := null;
     EditProfile.Profile.student_proof_url := null;
     EditProfile.Profile.school_expiry := null;
     EditProfile.Profile.national_id_proof_url := null |}.

Definition pdfOfOneMegabyte : Upload :=
  UFile {| File.size := 1 * 1024 * 1024; File.type := "application/pdf" |}.

(** The effects of the submit handler that tell the user something. *)
Definition isNotification (e : ForgotPassword.Effect) : bool :=
  match e with
  | ForgotPassword.ToastError _ => true
  | ForgotPassword.ToastSuccess _ => true
  | ForgotPassword.SetFieldError _ _ => true
  | _ => false
  end.

Definition isResetRequest (e : ForgotPassword.Effect) : bool :=
  match e with
  | ForgotPassword.ResetPasswordForEmail _ _ => true
  | _ => false
  end.

Definition isRouterPush (e : ForgotPassword.Effect) : bool :=
  match e with
  | ForgotPassword.RouterPush _ => true
  | _ => false
  end.

Definition isSetSubmitting (e : ForgotPassword.Effect) : bool :=
  match e with
  | ForgotPassword.SetSubmitting _ => true
  | _ => false
  end.

(** The account that may reset its password: registered, and signed up
    with an email and a password. *)
Definition emailAccount (check : ForgotPassword.Awaited ForgotPassword.CheckResult) : Prop :=
  exists existingUser,
    check = ForgotPassword.Resolved (ForgotPassword.CheckData existingUser)
    /\ presentText (ForgotPassword.email existingUser)
    /\ ForgotPassword.provider existingUser = val "email".

(** A word of a full name: letters, and at least one. *)
Definition NameWord (w : list ascii) : Prop :=
  w <> [] /\ Forall (fun c => isLetter c = true) w.

(** Two words or more, with one space between a word and the next. *)
Definition FullName (l : list ascii) : Prop :=
  exists first rest,
    rest <> []
    /\ Forall NameWord (first :: rest)
    /\ l = first ++ flat_map (cons " "%char) rest.

(** Digits, at least one, with or without a plus sign in front. *)
Definition PhoneNumber (l : list ascii) : Prop :=
  exists digits,
    digits <> []
    /\ Forall (fun c => isDigit c = true) digits
    /\ (l = digits \/ l = "+"%char :: digits).

Definition msgFullName : string :=
  "Full name must include only letters and contain atleast first and last name".

(** The rule of [fullName], for a form type with that field and the
    validation of the field. *)
Definition FullNameRule {Form : Type} (fullName : Form -> Js string)
           (validate : Form -> list Yup.ValidationError) : Prop :=
  forall values : Form,
    (fullName values = null \/ fullName values = undefined ->
     validate values = [("fullName", "Full Name is required")])
    /\ (forall s, fullName values = val s ->
          (validate values = [] <-> FullName (chars (trim s)))
          /\ (~ FullName (chars (trim s)) ->
              Yup.firstError (validate values) = Some msgFullName)).

(** The rule of [phone], likewise. *)
Definition PhoneRule {Form : Type} (phone : Form -> Js string)
           (validate : Form -> list Yup.ValidationError) : Prop :=
  forall values : Form,
    (phone values = null \/ phone values = undefined ->
     validate values = [("phone", "Phone number is required")])
    /\ (phone values = val "" \/ phone values = val "+" ->
        Yup.firstError (validate values) = Some "Phone number is required")
    /\ (forall s, phone values = val s ->
          (validate values = [] <-> PhoneNumber (chars s))
          /\ (s <> "" -> s <> "+" -> ~ PhoneNumber (chars s) ->
              validate values = [("phone", "Phone number can contain only + and numbers")])).

(** An address whose four fields pass one by one. *)
Definition validAddress (cities : list string) (address : Address.t) : Prop :=
  (exists line, Address.addressLine1 address = val line /\ trim line <> "")
  /\ Address.addressLine2 address <> null
  /\ (exists city, Address.city address = val city /\ In city cities /\ city <> "")
  /\ (exists zip, Address.zipCode address = val zip
                  /\ (3 <= String.length (trim zip) <= 10)%nat).

(** The rule of [nationalId], for a form type with its [userType] and
    [nationalId] fields and the validation of the latter. *)
Definition NationalIdRule {Form : Type} (userType nationalId : Form -> Js string)
           (validate : Form -> list Yup.ValidationError) : Prop :=
  forall values : Form,
    (userType values <> val "pension" -> validate values = [])
    /\ (userType values = val "pension" ->
        (validate values = [] <-> presentText (nationalId values))
        /\ (~ presentText (nationalId values) ->
            validate values = [("nationalId", "National ID is required for pension users")])).

(** The initial values of the registration form with the two passwords
    set. *)
Definition registrationValuesWithPasswords (password confirmPassword : Js string)
  : Registration.registrationFormType :=
  {| Registration.profilePic := null;
     Registration.fullName := val "";
     Registration.username := val "";
     Registration.email := val "";
     Registration.password := password;
     Registration.confirmPassword := confirmPassword;
     Registration.address :=
       {| Address.addressLine1 := val ""; Address.addressLine2 := val "";
          Address.city := val ""; Address.zipCode := val "" |};
     Registration.phone := val "";
     Registration.userType := val "general";
     Registration.dob := null;
     Registration.nationalId := val "";
     Registration.school := val emptySchool;
     Registration.nationalIdProof := null |}.

(** An element the edit form's proof rule measures as too large: a file
    over the limit, or a value that is neither a file nor a string. *)
Definition tooLargeForEdit (item : Upload) : Prop :=
  (exists f, item = UFile f /\ FILE_SIZE_LIMIT < File.size f)
  \/ (exists size type, item = UOther size type).

(** A list column of the profile with nothing in it. *)
Definition noReferences (column : Js (list string)) : Prop :=
  column = null \/ column = undefined \/ column = val [].

(** The rule of [userType] apart from the age: the value must be there and
    be one of the three user types. *)
Definition UserTypeRule {Form : Type} (userType : Form -> Js string)
           (validate : Form -> list Yup.ValidationError) : Prop :=
  forall values : Form,
    (userType values = null \/ userType values = undefined ->
     validate values = [("userType", "User type is required")])
    /\ (userType values = val "" ->
        Yup.firstError (validate values) = Some "User type is required")
    /\ (forall s, userType values = val s ->
          s <> "" -> s <> "student" -> s <> "general" -> s <> "pension" ->
          validate values = [("userType", "Invalid user type")]).

(** A school block that the edit form accepts of a student: as
    [validSchool], with stored references among the proofs. *)
Definition validSchoolForEdit (loadTime : Z) (sch : School.t) : Prop :=
  (exists n, School.name sch = val n /\ (2 <= String.length (trim n))%nat)
  /\ (exists i, School.id sch = val i /\ trim i <> "" /\ Forall idChar (chars (trim i)))
  /\ (exists files, School.proof sch = val files /\ Forall validStoredOrNew files)
  /\ (exists t, School.expiry sch = val (ValidDate t) /\ loadTime <= t).

(** Where the reading of the pattern stands: inside a word, with the rest
    of that word and the words to come ahead; or before a word. *)
Definition AheadInWord (l : list ascii) (separators : nat) : Prop :=
  exists w rest,
    l = w ++ flat_map (cons " "%char) rest
    /\ Forall (fun c => isLetter c = true) w
    /\ Forall NameWord rest
    /\ (separators + List.length rest <> 0)%nat.

Definition AheadOfWord (l : list ascii) (separators : nat) : Prop :=
  exists w rest,
    l = w ++ flat_map (cons " "%char) rest
    /\ NameWord w
    /\ Forall NameWord rest
    /\ (separators + List.length rest <> 0)%nat.

(** The initial values of the registration form with its contact fields,
    user type and national id set. *)
Definition registrationContact (fullName phone : Js string) (address : Address.t)
           (userType nationalId : Js string) : Registration.registrationFormType :=
  {| Registration.profilePic := null;
     Registration.fullName := fullName;
     Registration.username := val "";
     Registration.email := val "";
     Registration.password := val "";
     Registration.confirmPassword := val "";
     Registration.address := address;
     Registration.phone := phone;
     Registration.userType := userType;
     Registration.dob := null;
     Registration.nationalId := nationalId;
     Registration.school := val emptySchool;
     Registration.nationalIdProof := null |}.

Definition emptyAddress : Address.t :=
  {| Address.addressLine1 := val ""; Address.addressLine2 := val "";
     Address.city := val ""; Address.zipCode := val "" |}.

Definition exampleCities : list string := ["Colombo"; "Kandy"; "Galle"].

Definition exampleAddress : Address.t :=
  {| Address.addressLine1 := val "12 Lake Road"; Address.addressLine2 := val "";
     Address.city := val "Kandy"; Address.zipCode := val " 20000 " |}.

(** The initial values of the edit form with four fields set. *)
Definition editValues (userType : Js string) (dob : Js JsDate) (school : Js School.t)
           (nationalIdProof : Js (list Upload)) : EditProfile.editFormType :=
  {| EditProfile.profilePic := null;
     EditProfile.fullName := val "";
     EditProfile.username := val "";
     EditProfile.email := val "";
     EditProfile.address := emptyAddress;
     EditProfile.phone := val "";
     EditProfile.userType := userType;
     EditProfile.dob := dob;
     EditProfile.nationalId := val "";
     EditProfile.school := school;
     EditProfile.nationalIdProof := nationalIdProof |}.

(** * Properties *)

(** ** Auxiliary facts *)

Lemma length_chars (s : string) : List.length (chars s) = String.length s.
Proof. unfold chars; induction s; simpl; congruence. Qed.

Lemma forallb_Forall {A : Type} (f : A -> bool) (l : list A) :
  forallb f l = true <-> Forall (fun x => f x = true) l.
Proof.
  induction l as [|x l IH]; simpl.
  - split; [constructor | reflexivity].
  - rewrite andb_true_iff, IH. split.
    + intros [Hx Hl]; constructor; assumption.
    + intros H; inversion H; subst; split; assumption.
Qed.

Lemma existsb_Exists {A : Type} (f : A -> bool) (l : list A) :
  existsb f l = true <-> Exists (fun x => f x = true) l.
Proof.
  induction l as [|x l IH]; simpl.
  - split; [discriminate | intros H; inversion H].
  - rewrite orb_true_iff, IH. split.
    + intros [Hx | Hl]; [left | right]; assumption.
    + intros H; inversion H; subst; [left | right]; assumption.
Qed.

Lemma existsb_eqb_In (x : string) (l : list string) :
  existsb (String.eqb x) l = true <-> In x l.
Proof.
  rewrite existsb_exists. split.
  - intros [y [Hin Heq]]. apply String.eqb_eq in Heq. subst. assumption.
  - intros Hin. exists x. split; [assumption | apply String.eqb_refl].
Qed.

(** Reduction down to the conditions of the tests: the builders and the
    list functions are unfolded, the conditions and the fields of the form
    are kept. *)
Declare Reduction yup_red :=
  cbv -[String.eqb String.length Nat.eqb Nat.leb Z.leb Z.ltb Z.eqb Z.le Z.lt In
        re_lowerDigit5 re_hasLower re_hasDigit re_schoolId trim
        forallb existsb instanceofFile typeofString sizeLeq typeIncludedIn hasData
        FILE_SIZE_LIMIT IMAGE_SUPPORTED_FORMATS GENERAL_SUPPORTED_FORMATS
        numLt numGe strictEq valuesToString File.size File.type List.length
        EditProfile.withinSizeLimit EditProfile.ofSupportedFormat
        Registration.userType Registration.dob Registration.school
        Registration.nationalIdProof Registration.profilePic
        EditProfile.userType EditProfile.dob EditProfile.school
        EditProfile.nationalIdProof EditProfile.profilePic
        School.name School.id School.proof School.expiry].

(** Reduces every validation of the goal, and nothing else in it. *)
Ltac yup_unfold :=
  repeat match goal with
         | |- context [@Yup.validate ?A ?P ?s ?p ?v ?x] =>
             let t := constr:(@Yup.validate A P s p v x) in
             let t' := eval yup_red in t in
             change t with t'
         end;
  cbn [instanceofFile typeofString].

(** Reduces the whole goal. *)
Ltac yup_reduce := cbv -[String.eqb String.length Nat.eqb Nat.leb Z.leb Z.ltb Z.eqb Z.le Z.lt In
        re_lowerDigit5 re_hasLower re_hasDigit re_schoolId trim
        forallb existsb instanceofFile typeofString sizeLeq typeIncludedIn hasData
        FILE_SIZE_LIMIT IMAGE_SUPPORTED_FORMATS GENERAL_SUPPORTED_FORMATS
        numLt numGe strictEq valuesToString File.size File.type List.length
        EditProfile.withinSizeLimit EditProfile.ofSupportedFormat
        Registration.userType Registration.dob Registration.school
        Registration.nationalIdProof Registration.profilePic
        EditProfile.userType EditProfile.dob EditProfile.school
        EditProfile.nationalIdProof EditProfile.profilePic
        School.name School.id School.proof School.expiry].

(** Exposes the schema of a field of a form, resolved against the form
    values, with the conditions of its [when] clauses still to decide. *)
Ltac form_unfold :=
  cbv beta delta [Registration.validateAt_profilePic Registration.validateAt_userType
                  Registration.validateAt_dob Registration.validateAt_school
                  Registration.validateAt_nationalIdProof
                  EditProfile.validateAt_profilePic EditProfile.validateAt_userType
                  EditProfile.validateAt_dob EditProfile.validateAt_school
                  EditProfile.validateAt_nationalIdProof
                  Yup.validateField Yup.resolve];
  cbn [Registration.createRegistrationValidationSchema
       EditProfile.editProfileFormValidationSchema
       Registration.Shape.profilePic Registration.Shape.userType Registration.Shape.dob
       Registration.Shape.school Registration.Shape.nationalIdProof
       EditProfile.Shape.profilePic EditProfile.Shape.userType EditProfile.Shape.dob
       EditProfile.Shape.school EditProfile.Shape.nationalIdProof
       Yup.when Yup.whenFn Yup.always Yup.conditions Yup.base fold_left app].

(** ** The username rule *)

Lemma re_lowerDigit5_spec (s : string) :
  re_lowerDigit5 s = true <->
  String.length s = 5%nat /\ Forall (fun c => isLower c = true \/ isDigit c = true) (chars s).
Proof.
  unfold re_lowerDigit5.
  rewrite andb_true_iff, Nat.eqb_eq, length_chars, forallb_Forall.
  split; intros [H1 H2]; split; try assumption;
    eapply Forall_impl; try eassumption; simpl; intros c Hc.
  - apply orb_true_iff; assumption.
  - apply orb_true_iff; assumption.
Qed.

Lemma username_val_bool (P : Type) (parent : P) (s : string) :
  Yup.validate Registration.usernameSchema "username" (val s) parent = []
  <-> (negb (Nat.eqb (String.length s) 0) && Nat.eqb (String.length s) 5
       && negb (String.eqb s "") && re_lowerDigit5 s && re_hasLower s && re_hasDigit s) = true.
Proof.
  yup_unfold.
  destruct (Nat.eqb (String.length s) 0), (Nat.eqb (String.length s) 5),
    (String.eqb s ""), (re_lowerDigit5 s), (re_hasLower s), (re_hasDigit s);
    simpl; split; (reflexivity || discriminate).
Qed.

Lemma username_val_iff (P : Type) (parent : P) (s : string) :
  Yup.validate Registration.usernameSchema "username" (val s) parent = []
  <-> wellFormedUsername s.
Proof.
  rewrite username_val_bool. unfold wellFormedUsername.
  rewrite <- (existsb_Exists isLower), <- (existsb_Exists isDigit).
  fold (re_hasLower s) (re_hasDigit s).
  rewrite !andb_true_iff, !negb_true_iff, re_lowerDigit5_spec, Nat.eqb_eq, Nat.eqb_neq.
  split.
  - intros [[[[[_ H5] _] [_ Hall]] Hl] Hd]. auto.
  - intros [H5 [Hall [Hl Hd]]]. repeat split; try assumption.
    + rewrite H5. discriminate.
    + apply String.eqb_neq. intros ->. discriminate H5.
Qed.

(** C6: the username rule passes a value exactly when it is present, five
    characters long, made of lowercase letters and digits only, with at
    least one letter and at least one digit.  It accepts ab3de and rejects
    ABCDE, abcd and 12345. *)
Theorem username_rule (P : Type) (parent : P) :
  (forall value : Js string,
      Yup.validate Registration.usernameSchema "username" value parent = []
      <-> exists s, value = val s /\ wellFormedUsername s)
  /\ Yup.validate Registration.usernameSchema "username" (val "ab3de") parent = []
  /\ Yup.firstError (Yup.validate Registration.usernameSchema "username" (val "ABCDE") parent)
     = Some "Username must contain at least one letter and one digit and only lowercase letters and digits are allowed"
  /\ Yup.firstError (Yup.validate Registration.usernameSchema "username" (val "abcd") parent)
     = Some "Username must be exactly 5 characters"
  /\ Yup.firstError (Yup.validate Registration.usernameSchema "username" (val "12345") parent)
     = Some "Username must contain at least one letter and one digit and only lowercase letters and digits are allowed".
Proof.
  split; [| repeat split; reflexivity].
  intros [ | | s].
  - split; [discriminate | intros [s [H _]]; discriminate].
  - split; [discriminate | intros [s [H _]]; discriminate].
  - rewrite username_val_iff. split.
    + intros H. exists s. split; [reflexivity | assumption].
    + intros [s' [H Hs']]. injection H as ->. assumption.
Qed.

(** ** The image rule of [profilePic] *)

Lemma image_file_bool (P : Type) (parent : P) (f : File.t) :
  Yup.validate Registration.imageFileSchema "profilePic" (val (UFile f)) parent
  = ((if File.size f <=? FILE_SIZE_LIMIT then [] else [("profilePic", "File too large (max 2MB)")])
     ++ (if existsb (String.eqb (File.type f)) IMAGE_SUPPORTED_FORMATS then []
         else [("profilePic", "Unsupported file format (only JPG, JPEG, GIF, PNG)")]))%list.
Proof.
  yup_unfold.
  destruct (File.size f <=? FILE_SIZE_LIMIT),
    (existsb (String.eqb (File.type f)) IMAGE_SUPPORTED_FORMATS); reflexivity.
Qed.

(** C7: the registration image rule passes null and absent values; a file
    passes exactly when it is at most 2 MB large and its MIME type is one
    of JPEG, JPG, GIF, PNG; a 3 MB PNG fails on its size, a 1 MB BMP on its
    format. *)
Theorem profilePic_image_rule (P : Type) (parent : P) :
  Yup.validate Registration.imageFileSchema "profilePic" null parent = []
  /\ Yup.validate Registration.imageFileSchema "profilePic" undefined parent = []
  /\ (forall f : File.t,
         Yup.validate Registration.imageFileSchema "profilePic" (val (UFile f)) parent = []
         <-> File.size f <= 2 * 1024 * 1024
             /\ In (File.type f) ["image/jpeg"; "image/jpg"; "image/gif"; "image/png"])
  /\ Yup.validate Registration.imageFileSchema "profilePic"
       (val (UFile {| File.size := 3 * 1024 * 1024; File.type := "image/png" |})) parent
     = [("profilePic", "File too large (max 2MB)")]
  /\ Yup.validate Registration.imageFileSchema "profilePic"
       (val (UFile {| File.size := 1 * 1024 * 1024; File.type := "image/bmp" |})) parent
     = [("profilePic", "Unsupported file format (only JPG, JPEG, GIF, PNG)")].
Proof.
  split; [reflexivity |]. split; [reflexivity |].
  split; [| split; reflexivity].
  intros f. rewrite image_file_bool.
  change (2 * 1024 * 1024) with FILE_SIZE_LIMIT.
  change ["image/jpeg"; "image/jpg"; "image/gif"; "image/png"] with IMAGE_SUPPORTED_FORMATS.
  rewrite <- Z.leb_le, <- existsb_eqb_In.
  destruct (File.size f <=? FILE_SIZE_LIMIT),
    (existsb (String.eqb (File.type f)) IMAGE_SUPPORTED_FORMATS); simpl;
    split; try discriminate; try reflexivity; try (intros [? ?]; discriminate); auto.
Qed.

(** C5: the two image rules differ on strings only.  Registration answers
    Not a file to every value that is neither absent nor a file; the edit
    rule lets every string through; on null, on an absent value and on
    files the two report the same errors; and the two agree on acceptance
    everywhere but on strings. *)
Theorem image_rules_differ_on_strings (P : Type) (parent : P) :
  (forall s, Yup.firstError (Yup.validate Registration.imageFileSchema "profilePic"
                                          (val (UString s)) parent) = Some "Not a file")
  /\ (forall size type,
         Yup.firstError (Yup.validate Registration.imageFileSchema "profilePic"
                                      (val (UOther size type)) parent) = Some "Not a file")
  /\ (forall s, Yup.validate EditProfile.imageFileSchema "profilePic" (val (UString s)) parent = [])
  /\ Yup.validate Registration.imageFileSchema "profilePic" null parent
     = Yup.validate EditProfile.imageFileSchema "profilePic" null parent
  /\ Yup.validate Registration.imageFileSchema "profilePic" undefined parent
     = Yup.validate EditProfile.imageFileSchema "profilePic" undefined parent
  /\ (forall f, Yup.validate Registration.imageFileSchema "profilePic" (val (UFile f)) parent
                = Yup.validate EditProfile.imageFileSchema "profilePic" (val (UFile f)) parent)
  /\ (forall value,
         (Yup.validate Registration.imageFileSchema "profilePic" value parent = []
          <-> Yup.validate EditProfile.imageFileSchema "profilePic" value parent = [])
         <-> (forall s, value <> val (UString s))).
Proof.
  assert (Hfile : forall f,
             Yup.validate Registration.imageFileSchema "profilePic" (val (UFile f)) parent
             = Yup.validate EditProfile.imageFileSchema "profilePic" (val (UFile f)) parent).
  { intros f. yup_unfold.
    destruct (File.size f <=? FILE_SIZE_LIMIT),
      (existsb (String.eqb (File.type f)) IMAGE_SUPPORTED_FORMATS); reflexivity. }
  split; [reflexivity |]. split; [reflexivity |]. split; [reflexivity |].
  split; [reflexivity |]. split; [reflexivity |]. split; [exact Hfile |].
  intros value. split.
  - intros H s ->. destruct H as [_ H]. specialize (H eq_refl). discriminate H.
  - intros H. destruct value as [ | | [f | s | size type]].
    + split; reflexivity.
    + split; reflexivity.
    + rewrite Hfile. split; exact (fun h => h).
    + exfalso. exact (H s eq_refl).
    + split; discriminate.
Qed.

(** ** The age rule of [userType] *)

(** C1: in both forms, with a date of birth that gives an age under 60 the
    user type pension is refused with the under-60 message while student
    and general pass; with an age of 60 or more student and general are
    refused and pension passes; without a date of birth, or with an invalid
    one whose age is not a number, the schema is the one without the two
    age conditions. *)
Theorem userType_age_rule (calculateAge : JsDate -> JsNumber)
        (loadTime : Z) (cities : list string) (now : Z) :
  AgeRule calculateAge Registration.userType Registration.dob
          (Registration.Shape.userType
             (Registration.createRegistrationValidationSchema calculateAge loadTime cities now))
  /\ AgeRule calculateAge EditProfile.userType EditProfile.dob
             (EditProfile.Shape.userType
                (EditProfile.editProfileFormValidationSchema calculateAge loadTime cities now)).
Proof.
  assert (Hunder : forall age, age < 60 ->
                     numLt (Num age) 60 = true /\ numGe (Num age) 60 = false).
  { intros age H. split; [apply Z.ltb_lt | apply Z.leb_gt]; exact H. }
  assert (Hover : forall age, 60 <= age ->
                    numLt (Num age) 60 = false /\ numGe (Num age) 60 = true).
  { intros age H. split; [apply Z.ltb_ge | apply Z.leb_le]; exact H. }
  split; intros values; cbv zeta; form_unfold; (split; [| split]).
  (* an age under 60, in the one form and in the other *)
  1, 4: intros d age Hdob Hage Hlt; destruct (Hunder age Hlt) as [Hyoung Hold];
    rewrite Hdob, Hage, Hyoung, Hold;
    (split; [| split]); intros Hu; rewrite Hu; reflexivity.
  (* an age of 60 or more *)
  1, 3: intros d age Hdob Hage Hge; destruct (Hover age Hge) as [Hyoung Hold];
    rewrite Hdob, Hage, Hyoung, Hold;
    (split; [| split]); intros Hu; rewrite Hu; reflexivity.
  (* no usable date of birth *)
  all: intros [Hdob | [Hdob | [Hdob Hage]]]; rewrite Hdob; try rewrite Hage;
    (split; [reflexivity |]); intros [Hu | [Hu | Hu]]; rewrite Hu; reflexivity.
Qed.

(** ** Trimming *)

Lemma trimStart_head (l : list ascii) :
  trimStart l = [] \/ exists c m, trimStart l = c :: m /\ isSpace c = false.
Proof.
  induction l as [|a l IH]; simpl.
  - left; reflexivity.
  - destruct (isSpace a) eqn:E; [exact IH |].
    right. exists a, l. split; [reflexivity | exact E].
Qed.

Lemma trimStart_fixed (c : ascii) (m : list ascii) :
  isSpace c = false -> trimStart (c :: m) = c :: m.
Proof. intros H; simpl; rewrite H; reflexivity. Qed.

Lemma trimStart_idempotent (l : list ascii) : trimStart (trimStart l) = trimStart l.
Proof.
  destruct (trimStart_head l) as [-> | [c [m [-> Hc]]]]; [reflexivity |].
  apply trimStart_fixed; exact Hc.
Qed.

Lemma trimStart_snoc (xs : list ascii) (c : ascii) :
  trimStart (xs ++ [c])
  = match trimStart xs with
    | [] => if isSpace c then [] else [c]
    | y :: ys => (y :: ys) ++ [c]
    end.
Proof.
  induction xs as [|a xs IH]; simpl.
  - reflexivity.
  - destruct (isSpace a); [exact IH | reflexivity].
Qed.

Lemma trimEnd_cons (c : ascii) (m : list ascii) :
  trimEnd (c :: m)
  = match trimEnd m with
    | [] => if isSpace c then [] else [c]
    | y :: ys => c :: y :: ys
    end.
Proof.
  unfold trimEnd. simpl rev. rewrite trimStart_snoc.
  destruct (trimStart (rev m)) as [|a l] eqn:E.
  - simpl. destruct (isSpace c); reflexivity.
  - rewrite rev_app_distr. simpl.
    destruct (rev l ++ [a]) as [|y ys] eqn:E'; [| reflexivity].
    destruct (rev l); discriminate E'.
Qed.

(** Trimming the end leaves a trimmed start trimmed. *)
Lemma trimStart_trimEnd (c : ascii) (m : list ascii) :
  isSpace c = false -> trimStart (trimEnd (c :: m)) = trimEnd (c :: m).
Proof.
  intros Hc. rewrite trimEnd_cons.
  destruct (trimEnd m); [rewrite Hc |]; apply trimStart_fixed; exact Hc.
Qed.

Lemma trimEnd_idempotent (l : list ascii) : trimEnd (trimEnd l) = trimEnd l.
Proof.
  unfold trimEnd. rewrite rev_involutive, trimStart_idempotent. reflexivity.
Qed.

Lemma trim_idempotent (s : string) : trim (trim s) = trim s.
Proof.
  unfold trim, chars. rewrite list_ascii_of_string_of_list_ascii.
  fold (trimEnd (trimStart (list_ascii_of_string s))).
  fold (trimEnd (trimStart (trimEnd (trimStart (list_ascii_of_string s))))).
  destruct (trimStart_head (list_ascii_of_string s)) as [-> | [c [m [-> Hc]]]].
  - reflexivity.
  - rewrite (trimStart_trimEnd c m Hc), trimEnd_idempotent. reflexivity.
Qed.

Lemma trim_test (s : string) : String.eqb (trim s) (trim (trim s)) = true.
Proof. rewrite trim_idempotent. apply String.eqb_refl. Qed.

(** ** The proof-file rules *)

Lemma registration_proof_errors (P : Type) (parent : P) (path : string) (files : list Upload) :
  Yup.validate Registration.proofFileSchema path (val files) parent
  = (if forallb instanceofFile files then [] else [(path, "Not a file")])
    ++ (if forallb (fun file => sizeLeq file FILE_SIZE_LIMIT) files then []
        else [(path, "File too large (max 2MB)")])
    ++ (if forallb (typeIncludedIn GENERAL_SUPPORTED_FORMATS) files then []
        else [(path, "Unsupported file format (only JPG, JPEG, GIF, PNG, PDF, DOC, DOCX, TXT)")]).
Proof.
  yup_unfold.
  destruct (forallb instanceofFile files),
    (forallb (fun file => sizeLeq file FILE_SIZE_LIMIT) files),
    (forallb (typeIncludedIn GENERAL_SUPPORTED_FORMATS) files); reflexivity.
Qed.

Lemma instanceofFile_isFile (files : list Upload) :
  forallb instanceofFile files = true <-> Forall isFile files.
Proof.
  rewrite forallb_Forall. split; intros H; eapply Forall_impl; try exact H; simpl.
  - intros [f | s | sz ty] Hx; try discriminate. exists f; reflexivity.
  - intros item [f ->]. reflexivity.
Qed.

Lemma instanceofFile_false (files : list Upload) :
  forallb instanceofFile files = false <-> Exists (fun item => forall f, item <> UFile f) files.
Proof.
  induction files as [|item files IH]; simpl.
  - split; [discriminate | intros H; inversion H].
  - rewrite andb_false_iff, IH. split.
    + intros [H | H]; [left | right; exact H].
      destruct item; try discriminate; intros f'; discriminate.
    + intros H. inversion H as [? ? Hx | ? ? Hx]; subst; [left | right; exact Hx].
      destruct item as [f | |]; [exfalso; exact (Hx f eq_refl) | reflexivity | reflexivity].
Qed.

Lemma registration_files_valid (files : list Upload) :
  forallb instanceofFile files
  && forallb (fun file => sizeLeq file FILE_SIZE_LIMIT) files
  && forallb (typeIncludedIn GENERAL_SUPPORTED_FORMATS) files = true
  <-> Forall validNewFile files.
Proof.
  induction files as [|item files IH].
  - simpl. split; [constructor | reflexivity].
  - split.
    + intros H. cbn [forallb] in H. rewrite !andb_true_iff in H.
      destruct H as [[[Hi Hfi] [Hs Hfs]] [Ht Hft]].
      constructor.
      * destruct item as [f | s | sz ty]; try discriminate.
        cbn [sizeLeq typeIncludedIn] in Hs, Ht.
        exists f. split; [reflexivity |]. split.
        -- apply Z.leb_le. exact Hs.
        -- apply existsb_eqb_In. exact Ht.
      * apply IH. rewrite Hfi, Hfs, Hft. reflexivity.
    + intros H. inversion H as [| ? ? [f [-> [Hs Ht]]] Hrest]; subst.
      apply IH in Hrest. rewrite !andb_true_iff in Hrest.
      destruct Hrest as [[Hfi Hfs] Hft].
      cbn [forallb instanceofFile sizeLeq typeIncludedIn]. rewrite Hfi, Hfs, Hft.
      apply Z.leb_le in Hs. apply existsb_eqb_In in Ht. rewrite Hs, Ht. reflexivity.
Qed.

Lemma registration_proof_passes_iff (P : Type) (parent : P) (path : string)
      (files : list Upload) :
  Yup.validate Registration.proofFileSchema path (val files) parent = []
  <-> Forall validNewFile files.
Proof.
  rewrite registration_proof_errors, <- registration_files_valid.
  destruct (forallb instanceofFile files),
    (forallb (fun file => sizeLeq file FILE_SIZE_LIMIT) files),
    (forallb (typeIncludedIn GENERAL_SUPPORTED_FORMATS) files);
    simpl; split; (reflexivity || discriminate).
Qed.

Lemma size_too_large (files : list Upload) :
  Exists (fun item => exists f, item = UFile f /\ FILE_SIZE_LIMIT < File.size f) files ->
  forallb (fun file => sizeLeq file FILE_SIZE_LIMIT) files = false.
Proof.
  induction 1 as [item files [f [-> Hf]] | item files _ IH]; cbn [forallb sizeLeq].
  - apply andb_false_iff; left. apply Z.leb_gt. exact Hf.
  - apply andb_false_iff; right. exact IH.
Qed.

Lemma type_unsupported (files : list Upload) :
  Exists (fun item => exists f, item = UFile f
                                /\ ~ In (File.type f) GENERAL_SUPPORTED_FORMATS) files ->
  forallb (typeIncludedIn GENERAL_SUPPORTED_FORMATS) files = false.
Proof.
  induction 1 as [item files [f [-> Hf]] | item files _ IH]; cbn [forallb typeIncludedIn].
  - apply andb_false_iff; left.
    destruct (existsb (String.eqb (File.type f)) GENERAL_SUPPORTED_FORMATS) eqn:E;
      [| reflexivity].
    apply existsb_eqb_In in E. contradiction.
  - apply andb_false_iff; right. exact IH.
Qed.

Lemma sizes_within_limit (files : list Upload) :
  Forall (fun item => exists f, item = UFile f /\ File.size f <= FILE_SIZE_LIMIT) files ->
  forallb instanceofFile files = true
  /\ forallb (fun file => sizeLeq file FILE_SIZE_LIMIT) files = true.
Proof.
  induction 1 as [| item files [f [-> Hf]] _ [IH1 IH2]];
    cbn [forallb instanceofFile sizeLeq].
  - split; reflexivity.
  - rewrite IH1, IH2. apply Z.leb_le in Hf. rewrite Hf. split; reflexivity.
Qed.

(** C4 (as the code has it): the registration proof-file rule accepts
    null and an absent value, and a list exactly when each of its elements
    is a file of at most 2 MB with a supported MIME type.  Its first error
    is Not a file exactly when some element is not a file, a string
    included; File too large when all are files and one is over the limit;
    Unsupported file format when all are files within the limit and one
    has another MIME type. *)
Theorem registration_proof_file_rule (P : Type) (parent : P) (path : string) :
  Yup.validate Registration.proofFileSchema path null parent = []
  /\ Yup.validate Registration.proofFileSchema path undefined parent = []
  /\ (forall files,
         Yup.validate Registration.proofFileSchema path (val files) parent = []
         <-> Forall validNewFile files)
  /\ (forall files,
         Yup.firstError (Yup.validate Registration.proofFileSchema path (val files) parent)
         = Some "Not a file"
         <-> Exists (fun item => forall f, item <> UFile f) files)
  /\ (forall files,
         Forall isFile files ->
         Exists (fun item => exists f, item = UFile f /\ FILE_SIZE_LIMIT < File.size f) files ->
         Yup.firstError (Yup.validate Registration.proofFileSchema path (val files) parent)
         = Some "File too large (max 2MB)")
  /\ (forall files,
         Forall (fun item => exists f, item = UFile f /\ File.size f <= FILE_SIZE_LIMIT) files ->
         Exists (fun item => exists f, item = UFile f
                                       /\ ~ In (File.type f) GENERAL_SUPPORTED_FORMATS) files ->
         Yup.firstError (Yup.validate Registration.proofFileSchema path (val files) parent)
         = Some "Unsupported file format (only JPG, JPEG, GIF, PNG, PDF, DOC, DOCX, TXT)").
Proof.
  split; [reflexivity |]. split; [reflexivity |].
  split; [intros files; apply registration_proof_passes_iff |].
  split; [| split].
  - intros files. rewrite registration_proof_errors, <- instanceofFile_false.
    destruct (forallb instanceofFile files),
      (forallb (fun file => sizeLeq file FILE_SIZE_LIMIT) files),
      (forallb (typeIncludedIn GENERAL_SUPPORTED_FORMATS) files);
      simpl; split; (reflexivity || discriminate).
  - intros files Hfiles Hlarge. rewrite registration_proof_errors.
    apply instanceofFile_isFile in Hfiles. apply size_too_large in Hlarge.
    rewrite Hfiles, Hlarge. reflexivity.
  - intros files Hsizes Htype. rewrite registration_proof_errors.
    apply sizes_within_limit in Hsizes. destruct Hsizes as [H1 H2].
    apply type_unsupported in Htype.
    rewrite H1, H2, Htype. reflexivity.
Qed.

Lemma edit_proof_errors (P : Type) (parent : P) (path : string) (files : list Upload) :
  Yup.validate EditProfile.proofFileSchema path (val files) parent
  = (if forallb EditProfile.withinSizeLimit files then []
     else [(path, "File too large (max 2MB)")])
    ++ (if forallb EditProfile.ofSupportedFormat files then []
        else [(path, "Unsupported file format (only JPG, JPEG, GIF, PNG, PDF, DOC, DOCX, TXT)")]).
Proof.
  yup_unfold.
  destruct (forallb EditProfile.withinSizeLimit files),
    (forallb EditProfile.ofSupportedFormat files); reflexivity.
Qed.

Lemma edit_files_valid (files : list Upload) :
  forallb EditProfile.withinSizeLimit files && forallb EditProfile.ofSupportedFormat files = true
  <-> Forall validStoredOrNew files.
Proof.
  induction files as [|item files IH].
  - simpl. split; [constructor | reflexivity].
  - split.
    + intros H. cbn [forallb] in H. rewrite !andb_true_iff in H.
      destruct H as [[Hs Hfs] [Ht Hft]].
      constructor.
      * destruct item as [f | s | sz ty]; try discriminate.
        -- right. cbn [EditProfile.withinSizeLimit EditProfile.ofSupportedFormat] in Hs, Ht.
           exists f. split; [reflexivity |]. split.
           ++ apply Z.leb_le. exact Hs.
           ++ apply existsb_eqb_In. exact Ht.
        -- left. exists s. reflexivity.
      * apply IH. rewrite Hfs, Hft. reflexivity.
    + intros H. inversion H as [| ? ? Hitem Hrest]; subst.
      apply IH in Hrest. rewrite !andb_true_iff in Hrest.
      destruct Hrest as [Hfs Hft].
      cbn [forallb]. rewrite Hfs, Hft.
      destruct Hitem as [[s ->] | [f [-> [Hs Ht]]]].
      * reflexivity.
      * cbn [EditProfile.withinSizeLimit EditProfile.ofSupportedFormat].
        apply Z.leb_le in Hs. apply existsb_eqb_In in Ht. rewrite Hs, Ht. reflexivity.
Qed.

Lemma edit_proof_passes_iff (P : Type) (parent : P) (path : string) (files : list Upload) :
  Yup.validate EditProfile.proofFileSchema path (val files) parent = []
  <-> Forall validStoredOrNew files.
Proof.
  rewrite edit_proof_errors, <- edit_files_valid.
  destruct (forallb EditProfile.withinSizeLimit files),
    (forallb EditProfile.ofSupportedFormat files);
    simpl; split; (reflexivity || discriminate).
Qed.

(** ** The pension rule of [nationalIdProof] *)

Lemma strictEq_true (v : Js string) (s : string) : v = val s -> strictEq v s = true.
Proof. intros ->. apply String.eqb_refl. Qed.

Lemma strictEq_false (v : Js string) (s : string) : v <> val s -> strictEq v s = false.
Proof.
  intros H. destruct v as [ | | x]; try reflexivity.
  apply String.eqb_neq. intros ->. apply H. reflexivity.
Qed.


Section PensionRule.

Variable calculateAge : JsDate -> JsNumber.
Variables (loadTime : Z) (cities : list string) (now : Z).




End PensionRule.

(** ** The school rule *)

Lemma truthyString_present (v : Js string) : truthyString v = true <-> presentText v.
Proof.
  destruct v as [ | | s]; simpl.
  - split; [discriminate | intros [s [H _]]; discriminate].
  - split; [discriminate | intros [s [H _]]; discriminate].
  - rewrite negb_true_iff, String.eqb_neq. split.
    + intros H. exists s. split; [reflexivity | exact H].
    + intros [s' [H Hs']]. injection H as ->. exact Hs'.
Qed.

Lemma hasData_spec (sch : School.t) :
  hasData sch = true
  <-> presentText (School.name sch) \/ presentText (School.id sch)
      \/ presentList (School.proof sch) \/ present (School.expiry sch).
Proof.
  unfold hasData. rewrite !orb_true_iff, !truthyString_present.
  assert (Hproof : match School.proof sch with
                   | val files => negb (Nat.eqb (List.length files) 0)
                   | _ => false
                   end = true <-> presentList (School.proof sch)).
  { destruct (School.proof sch) as [ | | files].
    - split; [discriminate | intros [l [H _]]; discriminate].
    - split; [discriminate | intros [l [H _]]; discriminate].
    - split.
      + intros H. exists files. split; [reflexivity |]. intros ->. discriminate H.
      + intros [l [H Hl]]. injection H as ->. destruct l; [congruence | reflexivity]. }
  assert (Hexpiry : truthyObject (School.expiry sch) = true <-> present (School.expiry sch)).
  { destruct (School.expiry sch) as [ | | d]; simpl.
    - split; [discriminate | intros [a H]; discriminate].
    - split; [discriminate | intros [a H]; discriminate].
    - split; [intros _; exists d; reflexivity | reflexivity]. }
  rewrite Hproof, Hexpiry. tauto.
Qed.

Lemma not_student (v : Js string) :
  v <> val "student" -> String.eqb (valuesToString v) "student" = false.
Proof.
  intros H. destruct v as [ | | s]; try reflexivity.
  cbn [valuesToString]. apply String.eqb_neq. intros ->. apply H. reflexivity.
Qed.

Lemma re_schoolId_spec (s : string) :
  re_schoolId s = true <-> s <> "" /\ Forall idChar (chars s).
Proof.
  unfold re_schoolId.
  rewrite andb_true_iff, negb_true_iff, Nat.eqb_neq, length_chars, forallb_Forall.
  assert (Hlen : String.length s <> 0%nat <-> s <> "").
  { destruct s; simpl; split; congruence. }
  rewrite Hlen. split; intros [H1 H2]; split; try exact H1;
    eapply Forall_impl; try exact H2; simpl; intros c Hc; unfold idChar in *.
  - rewrite !orb_true_iff in Hc. tauto.
  - rewrite !orb_true_iff. tauto.
Qed.

Lemma under_nil (path : string) (errors : list Yup.ValidationError) :
  Yup.under path errors = [] <-> errors = [].
Proof. unfold Yup.under. destruct errors; simpl; split; (reflexivity || discriminate). Qed.

Section SchoolFields.

Variable loadTime : Z.
Context {P : Type} (parent : P).

Lemma schoolName_passes_iff (v : Js string) :
  Yup.validate Registration.schoolName "name" v parent = []
  <-> exists n, v = val n /\ (2 <= String.length (trim n))%nat.
Proof.
  destruct v as [ | | n].
  - split; [discriminate | intros [n [H _]]; discriminate].
  - split; [discriminate | intros [n [H _]]; discriminate].
  - yup_unfold. rewrite trim_test.
    destruct (Nat.leb 2 (String.length (trim n))) eqn:E2;
      destruct (Nat.eqb (String.length (trim n)) 0) eqn:E0; cbv beta iota.
    + apply Nat.leb_le in E2. apply Nat.eqb_eq in E0. lia.
    + apply Nat.leb_le in E2. split; [| reflexivity].
      intros _. exists n. split; [reflexivity | exact E2].
    + split; [discriminate |]. intros [n' [H Hn]]. injection H as ->.
      apply Nat.leb_gt in E2. lia.
    + split; [discriminate |]. intros [n' [H Hn]]. injection H as ->.
      apply Nat.leb_gt in E2. lia.
Qed.

Lemma schoolId_passes_iff (v : Js string) :
  Yup.validate Registration.schoolId "id" v parent = []
  <-> exists i, v = val i /\ trim i <> "" /\ Forall idChar (chars (trim i)).
Proof.
  destruct v as [ | | i].
  - split; [discriminate | intros [i [H _]]; discriminate].
  - split; [discriminate | intros [i [H _]]; discriminate].
  - pose proof (re_schoolId_spec (trim i)) as Hspec.
    assert (Hlen : String.length (trim i) <> 0%nat <-> trim i <> "").
    { destruct (trim i); simpl; split; congruence. }
    yup_unfold. rewrite trim_test.
    destruct (re_schoolId (trim i)) eqn:Er;
      destruct (Nat.eqb (String.length (trim i)) 0) eqn:E0; cbv beta iota.
    + apply Nat.eqb_eq in E0. destruct (proj1 Hspec eq_refl) as [Hne _].
      apply Hlen in Hne. contradiction.
    + split; [| reflexivity]. intros _. exists i. split; [reflexivity |].
      apply Hspec. reflexivity.
    + split; [discriminate |]. intros [i' [H Hi]]. injection H as ->.
      apply Hspec in Hi. discriminate Hi.
    + split; [discriminate |]. intros [i' [H Hi]]. injection H as ->.
      apply Hspec in Hi. discriminate Hi.
Qed.


Lemma schoolExpiry_passes_iff (v : Js JsDate) :
  Yup.validate (Registration.schoolExpiry loadTime) "expiry" v parent = []
  <-> exists t, v = val (ValidDate t) /\ loadTime <= t.
Proof.
  destruct v as [ | | [t | ]].
  - split; [discriminate | intros [t [H _]]; discriminate].
  - split; [discriminate | intros [t [H _]]; discriminate].
  - yup_unfold. destruct (loadTime <=? t) eqn:E; cbv beta iota.
    + split; [| reflexivity]. intros _. exists t. split; [reflexivity |].
      apply Z.leb_le. exact E.
    + split; [discriminate |]. intros [t' [H Ht]]. injection H as ->.
      apply Z.leb_gt in E. lia.
  - split; [discriminate | intros [t [H _]]; discriminate].
Qed.

End SchoolFields.

Section SchoolRule.

Variable calculateAge : JsDate -> JsNumber.
Variables (loadTime : Z) (cities : list string) (now : Z).



Lemma registration_other_school (values : Registration.registrationFormType) :
  Registration.userType values <> val "student" ->
  Registration.validateAt_school calculateAge loadTime cities now values
  = match Registration.school values with
    | undefined => []
    | null => [("school", "${path} cannot be null")]
    | val sch => if hasData sch then [("school", msgStudentsOnly)] else []
    end.
Proof.
  intros Hu. apply not_student in Hu.
  form_unfold. rewrite Hu.
  destruct (Registration.school values) as [ | | sch]; try reflexivity.
  yup_unfold. destruct (hasData sch); reflexivity.
Qed.

Lemma edit_other_school (values : EditProfile.editFormType) :
  EditProfile.userType values <> val "student" ->
  EditProfile.validateAt_school calculateAge loadTime cities now values
  = match EditProfile.school values with
    | undefined => []
    | null => [("school", "${path} cannot be null")]
    | val sch => if hasData sch then [("school", msgStudentsOnly)] else []
    end.
Proof.
  intros Hu. apply not_student in Hu.
  form_unfold. rewrite Hu.
  destruct (EditProfile.school values) as [ | | sch]; try reflexivity.
  yup_unfold. destruct (hasData sch); reflexivity.
Qed.


(** ** The empty school block *)

(** C10: with a user type other than student, a school block with empty
    name and id, a null or empty proof and a null expiry gives no error, in
    both forms; so does the school block of the registration form's initial
    values. *)
Theorem empty_school_block_passes :
  EmptySchoolRule Registration.userType Registration.school
    (Registration.Shape.school
       (Registration.createRegistrationValidationSchema calculateAge loadTime cities now))
  /\ EmptySchoolRule EditProfile.userType EditProfile.school
       (EditProfile.Shape.school
          (EditProfile.editProfileFormValidationSchema calculateAge loadTime cities now))
  /\ (forall values : Registration.registrationFormType,
         Registration.userType values <> val "student" ->
         Registration.school values
         = Registration.school Registration.registrationFormInitialValues ->
         Registration.validateAt_school calculateAge loadTime cities now values = []).
Proof.
  split; [| split].
  - intros values proof Hu Hp Hs.
    fold (Registration.validateAt_school calculateAge loadTime cities now values).
    rewrite (registration_other_school values Hu), Hs.
    destruct Hp as [-> | ->]; reflexivity.
  - intros values proof Hu Hp Hs.
    fold (EditProfile.validateAt_school calculateAge loadTime cities now values).
    rewrite (edit_other_school values Hu), Hs.
    destruct Hp as [-> | ->]; reflexivity.
  - intros values Hu Hs.
    rewrite (registration_other_school values Hu), Hs. reflexivity.
Qed.

End SchoolRule.

(** ** The date-of-birth rule *)

(** C8 (as the code has it): in both forms the [dob] rule answers that the
    date of birth is required when it is null or absent, Invalid date when
    it is not a valid date, and that it cannot be in the future when it is
    later than the instant at which the schema was built; it passes
    otherwise. *)
Theorem dob_rule (calculateAge : JsDate -> JsNumber) (loadTime : Z) (cities : list string) :
  DobRule Registration.dob
          (fun now => Registration.Shape.dob
                        (Registration.createRegistrationValidationSchema
                           calculateAge loadTime cities now))
  /\ DobRule EditProfile.dob
             (fun now => EditProfile.Shape.dob
                           (EditProfile.editProfileFormValidationSchema
                              calculateAge loadTime cities now)).
Proof.
  split; intros now values; cbv zeta; form_unfold; (split; [| split; [| split]]).
  (* null or absent, in the one form and in the other *)
  1, 5: intros [H | H]; rewrite H; reflexivity.
  (* not a valid date *)
  1, 4: intros H; rewrite H; reflexivity.
  (* later than the instant the schema was built at *)
  1, 3: intros t H Hlt; rewrite H; yup_unfold;
    apply Z.leb_gt in Hlt; rewrite Hlt; reflexivity.
  (* at that instant or before *)
  all: intros t H Hle; rewrite H; yup_unfold;
    apply Z.leb_le in Hle; rewrite Hle; reflexivity.
Qed.

(** ** The initial values of the edit form *)

Lemma orString_TextField (column : Js string) (dflt : string) :
  TextField column dflt (val (orString column dflt)).
Proof.
  split.
  - intros s -> Hs. simpl. apply String.eqb_neq in Hs. rewrite Hs. reflexivity.
  - intros [-> | [-> | ->]]; reflexivity.
Qed.

Lemma dateOrNull_DateField (newDate : string -> JsDate) (column : Js string) :
  DateField newDate column (EditProfile.dateOrNull newDate column).
Proof.
  split.
  - intros s -> Hs. simpl. apply String.eqb_neq in Hs. rewrite Hs. reflexivity.
  - intros [-> | [-> | ->]]; reflexivity.
Qed.

Lemma referenceOrNull_ReferenceField (column : Js string) :
  ReferenceField column (EditProfile.referenceOrNull column).
Proof.
  split.
  - intros s -> Hs. unfold EditProfile.referenceOrNull. simpl.
    apply String.eqb_neq in Hs. rewrite Hs. reflexivity.
  - intros [-> | [-> | ->]]; reflexivity.
Qed.

Lemma referencesOrNull_ReferenceListField (column : Js (list string)) :
  ReferenceListField column (EditProfile.referencesOrNull column).
Proof.
  split.
  - intros urls ->. reflexivity.
  - intros [-> | ->]; reflexivity.
Qed.

(** C9 (as the code has it): the initial values of the edit form take
    each column of the profile into its field.  A present value is kept
    (dates through the date parser, stored uploads as references); a
    missing text column becomes the empty string, a missing upload or date
    null and a missing user type general; a missing email becomes the
    caller's [userEmail]; the full name and the user name are copied as they
    are. *)
Theorem edit_form_initial_values (newDate : string -> JsDate)
        (data : EditProfile.Profile.t) (userEmail : string) :
  let form := EditProfile.setDefaultValuesInEditForm newDate data userEmail in
  ReferenceField (EditProfile.Profile.avatar_url data) (EditProfile.profilePic form)
  /\ EditProfile.fullName form = EditProfile.Profile.full_name data
  /\ EditProfile.username form = EditProfile.Profile.user_name data
  /\ TextField (EditProfile.Profile.email data) userEmail (EditProfile.email form)
  /\ TextField (EditProfile.Profile.address_line1 data) ""
               (Address.addressLine1 (EditProfile.address form))
  /\ TextField (EditProfile.Profile.address_line2 data) ""
               (Address.addressLine2 (EditProfile.address form))
  /\ TextField (EditProfile.Profile.city data) "" (Address.city (EditProfile.address form))
  /\ TextField (EditProfile.Profile.zip_code data) ""
               (Address.zipCode (EditProfile.address form))
  /\ TextField (EditProfile.Profile.phone_number data) "" (EditProfile.phone form)
  /\ TextField (EditProfile.Profile.user_type data) "general" (EditProfile.userType form)
  /\ DateField newDate (EditProfile.Profile.date_of_birth data) (EditProfile.dob form)
  /\ TextField (EditProfile.Profile.national_id data) "" (EditProfile.nationalId form)
  /\ (exists sch,
         EditProfile.school form = val sch
         /\ TextField (EditProfile.Profile.school_name data) "" (School.name sch)
         /\ TextField (EditProfile.Profile.school_id data) "" (School.id sch)
         /\ ReferenceListField (EditProfile.Profile.student_proof_url data) (School.proof sch)
         /\ DateField newDate (EditProfile.Profile.school_expiry data) (School.expiry sch))
  /\ ReferenceListField (EditProfile.Profile.national_id_proof_url data)
                        (EditProfile.nationalIdProof form).
Proof.
  cbv zeta. unfold EditProfile.setDefaultValuesInEditForm. simpl.
  repeat match goal with
         | |- _ /\ _ => split
         | |- exists _, _ => eexists; split; [reflexivity |]; simpl
         | |- TextField _ _ _ => apply orString_TextField
         | |- DateField _ _ _ => apply dateOrNull_DateField
         | |- ReferenceField _ _ => apply referenceOrNull_ReferenceField
         | |- ReferenceListField _ _ => apply referencesOrNull_ReferenceListField
         | |- _ = _ => reflexivity
         end.
Qed.

(** ** The claims on both forms, and their instances *)

Lemma userType_age_rule_witness :
  Yup.firstError
    (Registration.validateAt_userType exampleAge 0 [] exampleNow
       (registrationValues (val "pension") (val (bornYearsAgo 30)) (val emptySchool) null))
  = Some msgPensionUnder60
  /\ Registration.validateAt_userType exampleAge 0 [] exampleNow
       (registrationValues (val "pension") (val (bornYearsAgo 70)) (val emptySchool) null)
     = []
  /\ Registration.validateAt_userType exampleAge 0 [] exampleNow
       (registrationValues (val "general") (val InvalidDate) (val emptySchool) null)
     = [].
Proof.
  pose proof (userType_age_rule exampleAge 0 [] exampleNow) as [H _].
  split; [| split].
  - destruct (H (registrationValues (val "pension") (val (bornYearsAgo 30))
                                    (val emptySchool) null)) as [Hunder _].
    destruct (Hunder (bornYearsAgo 30) 30 eq_refl eq_refl eq_refl) as [Hpension _].
    exact (Hpension eq_refl).
  - destruct (H (registrationValues (val "pension") (val (bornYearsAgo 70))
                                    (val emptySchool) null)) as [_ [Hover _]].
    destruct (Hover (bornYearsAgo 70) 70 eq_refl eq_refl ltac:(lia)) as [_ [_ Hpension]].
    exact (Hpension eq_refl).
  - destruct (H (registrationValues (val "general") (val InvalidDate)
                                    (val emptySchool) null)) as [_ [_ Hskip]].
    destruct (Hskip (or_intror (or_intror (conj eq_refl eq_refl)))) as [_ Hpass].
    exact (Hpass (or_intror (or_intror eq_refl))).
Defined.



Lemma registration_proof_file_rule_witness :
  Yup.validate Registration.proofFileSchema "nationalIdProof" (val [pdfOfOneMegabyte]) tt = []
  /\ Yup.firstError
       (Yup.validate Registration.proofFileSchema "nationalIdProof"
          (val [UFile {| File.size := 3 * 1024 * 1024; File.type := "application/pdf" |}]) tt)
     = Some "File too large (max 2MB)".
Proof.
  pose proof (registration_proof_file_rule unit tt "nationalIdProof")
    as [_ [_ [Hpass [_ [Hlarge _]]]]].
  split.
  - apply Hpass. constructor; [| constructor].
    eexists. split; [reflexivity |]. split; [unfold FILE_SIZE_LIMIT; simpl; lia |].
    simpl. tauto.
  - apply Hlarge.
    + constructor; [| constructor]. eexists. reflexivity.
    + constructor. eexists. split; [reflexivity |]. unfold FILE_SIZE_LIMIT. simpl. lia.
Defined.

(** C4, against the wording of the specification: a list holding one stored
    reference is refused, with Not a file. *)
Lemma stored_reference_is_not_a_file :
  Yup.firstError
    (Yup.validate Registration.proofFileSchema "nationalIdProof"
       (val [UString "proofs/national-id.pdf"]) tt)
  = Some "Not a file".
Proof. reflexivity. Qed.


Lemma empty_school_block_passes_witness :
  Registration.validateAt_school exampleAge 0 [] exampleNow
    Registration.registrationFormInitialValues
  = [].
Proof.
  destruct (empty_school_block_passes exampleAge 0 [] exampleNow) as [_ [_ Hinitial]].
  apply Hinitial; [discriminate | reflexivity].
Defined.

Lemma dob_rule_witness :
  Registration.validateAt_dob exampleAge 0 [] exampleNow
    (registrationValues (val "general") (val (bornYearsAgo 30)) (val emptySchool) null)
  = [].
Proof.
  destruct (dob_rule exampleAge 0 []) as [H _].
  destruct (H exampleNow
              (registrationValues (val "general") (val (bornYearsAgo 30))
                                  (val emptySchool) null)) as [_ [_ [_ Hpast]]].
  apply (Hpast (exampleNow - 30 * msPerYear) eq_refl).
  unfold exampleNow, msPerYear. lia.
Defined.

(** C8, against the wording of the specification: the schema is built at
    instant 1000 and used at instant 2000; a date of birth at 1500 is in the
    past by then, and is refused as being in the future. *)
Lemma dob_before_validation_refused :
  1000 <= 2000
  /\ 1500 <= 2000
  /\ Registration.validateAt_dob exampleAge 0 [] 1000
       (registrationValues (val "general") (val (ValidDate 1500)) (val emptySchool) null)
     = [("dob", "Date of birth cannot be in the future")].
Proof. repeat split; (reflexivity || lia). Qed.

Lemma edit_form_initial_values_witness :
  EditProfile.email
    (EditProfile.setDefaultValuesInEditForm (fun _ => InvalidDate)
       (profileWithEmail (val "jane@example.com")) "login@example.com")
  = val "jane@example.com"
  /\ EditProfile.userType
       (EditProfile.setDefaultValuesInEditForm (fun _ => InvalidDate)
          (profileWithEmail (val "jane@example.com")) "login@example.com")
     = val "general".
Proof.
  pose proof (edit_form_initial_values (fun _ => InvalidDate)
                (profileWithEmail (val "jane@example.com")) "login@example.com") as H.
  cbv zeta in H.
  destruct H as [_ [_ [_ [[Hemail _] [_ [_ [_ [_ [_ [[_ Htype] _]]]]]]]]]].
  split.
  - apply Hemail; [reflexivity | discriminate].
  - apply Htype. right. left. reflexivity.
Defined.

(** C9, against the wording of the specification: with no email in the
    profile the email of the form is the [userEmail] of the caller, neither
    the empty string nor null. *)
Lemma missing_email_takes_userEmail :
  EditProfile.email
    (EditProfile.setDefaultValuesInEditForm (fun _ => InvalidDate)
       (profileWithEmail null) "login@example.com")
  = val "login@example.com"
  /\ EditProfile.email
       (EditProfile.setDefaultValuesInEditForm (fun _ => InvalidDate)
          (profileWithEmail null) "login@example.com")
     <> val ""
  /\ EditProfile.email
       (EditProfile.setDefaultValuesInEditForm (fun _ => InvalidDate)
          (profileWithEmail null) "login@example.com")
     <> null.
Proof. repeat split; (reflexivity || discriminate). Qed.

(** * Further properties *)

(** ** The password-reset page *)

Ltac handler_cases from check reset :=
  unfold ForgotPassword.onSubmit, ForgotPassword.tryBlock, ForgotPassword.requestReset;
  destruct from as [ | | f]; cbn [truthyString negb];
  [ | | destruct (String.eqb f "") eqn:Hfrom; cbn [negb] ];
  (destruct check as [[cm | [[ | | ue] [ | | up]]] | cm]; cbn [truthyString negb
     ForgotPassword.email ForgotPassword.provider strictEq];
   try (destruct (String.eqb ue "") eqn:Hue; cbn [negb]);
   try (destruct (String.eqb up "email") eqn:Hup; cbn [negb]));
  destruct reset as [[rm | ] | rm]; cbn [app].

(** X1: whatever the two calls come to, the handler ends by releasing the
    form, and releases it once. *)
Theorem submit_ends_with_setSubmitting (from : Js string) (baseUrl values_email : string)
        (check : ForgotPassword.Awaited ForgotPassword.CheckResult)
        (reset : ForgotPassword.Awaited ForgotPassword.ResetResult) :
  exists before,
    ForgotPassword.onSubmit from baseUrl values_email check reset
    = before ++ [ForgotPassword.SetSubmitting false]
    /\ existsb isSetSubmitting before = false.
Proof.
  exists (removelast (ForgotPassword.onSubmit from baseUrl values_email check reset)).
  split; handler_cases from check reset; reflexivity.
Qed.

(** X2: the reset email is requested exactly when the page was reached with
    a [from] parameter, or the address belongs to a registered account that
    signs in with email; the existence check is made exactly when there is
    no [from] parameter; and the request, when made, is for the address
    typed in, with the reset page of the site as its target. *)
Theorem reset_requested_iff (from : Js string) (baseUrl values_email : string)
        (check : ForgotPassword.Awaited ForgotPassword.CheckResult)
        (reset : ForgotPassword.Awaited ForgotPassword.ResetResult) :
  let effects := ForgotPassword.onSubmit from baseUrl values_email check reset in
  (existsb isResetRequest effects = true <-> presentText from \/ emailAccount check)
  /\ (In (ForgotPassword.CheckExistingEmail values_email) effects <-> ~ presentText from)
  /\ (forall e r, In (ForgotPassword.ResetPasswordForEmail e r) effects ->
        e = values_email /\ r = (baseUrl ++ "/api/reset-password")%string).
Proof.
  cbv zeta. rewrite <- truthyString_present.
  assert (Haccount : emailAccount check <->
            match check with
            | ForgotPassword.Resolved (ForgotPassword.CheckData u) =>
                truthyString (ForgotPassword.email u) = true
                /\ strictEq (ForgotPassword.provider u) "email" = true
            | _ => False
            end).
  { unfold emailAccount. split.
    - intros [u [-> [Hemail Hprovider]]]. rewrite truthyString_present, Hprovider.
      split; [exact Hemail | apply String.eqb_refl].
    - destruct check as [[cm | u] | cm]; try contradiction.
      intros [Hemail Hprovider]. exists u. split; [reflexivity |].
      rewrite <- truthyString_present. split; [exact Hemail |].
      destruct (ForgotPassword.provider u) as [ | | p]; try discriminate.
      apply String.eqb_eq in Hprovider. rewrite Hprovider. reflexivity. }
  rewrite Haccount. clear Haccount.
  split; [| split].
  - handler_cases from check reset; cbn; rewrite ?Hue, ?Hup; cbn;
      intuition (try discriminate; try contradiction; auto).
  - handler_cases from check reset; cbn;
      intuition (try discriminate; try contradiction; auto).
  - intros e r. handler_cases from check reset; cbn;
      intuition (try discriminate; try contradiction);
      match goal with H : ForgotPassword.ResetPasswordForEmail _ _ = _ |- _ =>
        injection H; intros; subst; reflexivity end.
Qed.

(** X3: the handler goes to the login page exactly when the reset email was
    requested and the request came back without an error; it goes nowhere
    else, and what the user is told then is the success message alone. *)
Theorem redirect_only_after_success (from : Js string) (baseUrl values_email : string)
        (check : ForgotPassword.Awaited ForgotPassword.CheckResult)
        (reset : ForgotPassword.Awaited ForgotPassword.ResetResult) :
  let effects := ForgotPassword.onSubmit from baseUrl values_email check reset in
  (existsb isRouterPush effects = true
   <-> existsb isResetRequest effects = true
       /\ reset = ForgotPassword.Resolved ForgotPassword.ResetSent)
  /\ (forall url, In (ForgotPassword.RouterPush url) effects -> url = "/auth/login")
  /\ (existsb isRouterPush effects = true ->
      filter isNotification effects
      = [ForgotPassword.ToastSuccess "Password reset email sent. Please check your inbox!"]).
Proof.
  cbv zeta. split; [| split].
  - handler_cases from check reset; cbn;
      intuition (try discriminate; try contradiction; auto).
  - intros url. handler_cases from check reset; cbn;
      intuition (try discriminate; try contradiction);
      match goal with H : ForgotPassword.RouterPush _ = _ |- _ =>
        injection H; intros; subst; reflexivity end.
  - handler_cases from check reset; cbn; intros H; (discriminate H || reflexivity).
Qed.

(** X4: every run of the handler tells the user exactly one thing: an error
    toast, a field error or the success toast. *)
Theorem submit_notifies_once (from : Js string) (baseUrl values_email : string)
        (check : ForgotPassword.Awaited ForgotPassword.CheckResult)
        (reset : ForgotPassword.Awaited ForgotPassword.ResetResult) :
  List.length (filter isNotification
                 (ForgotPassword.onSubmit from baseUrl values_email check reset)) = 1%nat.
Proof. handler_cases from check reset; reflexivity. Qed.

(** ** The full name, the phone number and the password *)

Lemma isBlank_space (c : ascii) : isBlank c = true <-> c = " "%char.
Proof.
  unfold isBlank, charCode. rewrite Z.eqb_eq. split.
  - intros H. rewrite <- (ascii_nat_embedding c).
    replace (nat_of_ascii c) with 32%nat by lia. reflexivity.
  - intros ->. reflexivity.
Qed.

Lemma isPlus_plus (c : ascii) : isPlus c = true <-> c = "+"%char.
Proof.
  unfold isPlus, charCode. rewrite Z.eqb_eq. split.
  - intros H. rewrite <- (ascii_nat_embedding c).
    replace (nat_of_ascii c) with 43%nat by lia. reflexivity.
  - intros ->. reflexivity.
Qed.

Lemma words_start_with_space (rest : list (list ascii)) (c : ascii) (l : list ascii) :
  c :: l = flat_map (cons " "%char) rest ->
  c = " "%char /\ exists w rest', rest = w :: rest' /\ l = w ++ flat_map (cons " "%char) rest'.
Proof.
  destruct rest as [|w rest']; simpl; [discriminate |].
  intros H. injection H as -> ->. split; [reflexivity |].
  exists w, rest'. split; reflexivity.
Qed.

Lemma fullNameFrom_spec (l : list ascii) :
  forall separators,
    (fullNameFrom l true separators = true <-> AheadInWord l separators)
    /\ (fullNameFrom l false separators = true <-> AheadOfWord l separators).
Proof.
  induction l as [|c l IH]; intros n.
  - simpl. split.
    + rewrite negb_true_iff, Nat.eqb_neq. split.
      * intros Hn. exists [], []. simpl.
        split; [reflexivity |]. split; [constructor |]. split; [constructor | lia].
      * intros [w [rest [Hl [_ [_ Hn]]]]].
        symmetry in Hl. apply app_eq_nil in Hl. destruct Hl as [_ Hrest].
        destruct rest; [simpl in Hn; lia | discriminate Hrest].
    + split; [discriminate |].
      intros [w [rest [Hl [[Hw _] _]]]].
      symmetry in Hl. apply app_eq_nil in Hl. destruct Hl as [-> _]. contradiction.
  - cbn [fullNameFrom].
    destruct (isLetter c) eqn:Hc.
    + (* a letter: the word goes on, or starts *)
      destruct (IH n) as [IHin _]. rewrite IHin. split.
      * split.
        -- intros [w [rest [-> [Hw [Hrest Hn]]]]].
           exists (c :: w), rest. repeat split; try assumption.
           constructor; assumption.
        -- intros [w [rest [Hl [Hw [Hrest Hn]]]]].
           destruct w as [|c' w].
           ++ simpl in Hl. apply words_start_with_space in Hl.
              destruct Hl as [-> _]. discriminate Hc.
           ++ simpl in Hl. injection Hl as <- ->.
              exists w, rest. inversion Hw; subst. repeat split; assumption.
      * split.
        -- intros [w [rest [-> [Hw [Hrest Hn]]]]].
           exists (c :: w), rest. repeat split; try assumption.
           ++ discriminate.
           ++ constructor; assumption.
        -- intros [w [rest [Hl [[Hne Hw] [Hrest Hn]]]]].
           destruct w as [|c' w]; [contradiction |].
           simpl in Hl. injection Hl as <- ->.
           exists w, rest. inversion Hw; subst. repeat split; assumption.
    + destruct (isBlank c) eqn:Hb; cbn [andb].
      * (* a space: it ends a word, and cannot start one *)
        apply isBlank_space in Hb. subst c.
        destruct (IH (S n)) as [_ IHof]. rewrite IHof. split.
        -- split.
           ++ intros [w [rest [-> [Hw [Hrest _]]]]].
              exists [], (w :: rest). simpl. repeat split; try constructor; try assumption.
              lia.
           ++ intros [w [rest [Hl [Hw [Hrest Hn]]]]].
              destruct w as [|c' w].
              ** simpl in Hl. apply words_start_with_space in Hl.
                 destruct Hl as [_ [w' [rest' [-> ->]]]].
                 inversion Hrest as [| ? ? Hw' Hrest']; subst.
                 exists w', rest'.
                 split; [reflexivity |]. split; [exact Hw' |]. split; [exact Hrest' | lia].
              ** simpl in Hl. injection Hl as <- ->.
                 inversion Hw; subst. discriminate.
        -- split; [discriminate |].
           intros [w [rest [Hl [[Hne Hw] _]]]].
           destruct w as [|c' w]; [contradiction |].
           simpl in Hl. injection Hl as <- ->. inversion Hw; subst. discriminate.
      * (* any other character *)
        split; (split; [discriminate |]).
        -- intros [w [rest [Hl [Hw _]]]].
           destruct w as [|c' w].
           ++ simpl in Hl. apply words_start_with_space in Hl.
              destruct Hl as [-> _]. discriminate Hb.
           ++ simpl in Hl. injection Hl as <- ->.
              inversion Hw; subst. congruence.
        -- intros [w [rest [Hl [[Hne Hw] _]]]].
           destruct w as [|c' w]; [contradiction |].
           simpl in Hl. injection Hl as <- ->. inversion Hw; subst. congruence.
Qed.

Lemma re_fullName_spec (s : string) : re_fullName s = true <-> FullName (chars s).
Proof.
  unfold re_fullName. destruct (fullNameFrom_spec (chars s) 0) as [_ H]. rewrite H.
  unfold AheadOfWord, FullName. split.
  - intros [w [rest [Hl [Hw [Hrest Hn]]]]].
    exists w, rest. split; [| split].
    + intros ->. apply Hn. reflexivity.
    + constructor; assumption.
    + exact Hl.
  - intros [w [rest [Hne [Hall Hl]]]].
    inversion Hall as [| ? ? Hw Hrest]; subst.
    exists w, rest. split; [exact Hl |]. split; [exact Hw |]. split; [exact Hrest |].
    destruct rest; [contradiction | discriminate].
Qed.

(** Reduction of the validations of the remaining fields. *)
Declare Reduction rest_red :=
  cbv -[String.eqb String.length Nat.eqb Nat.leb Z.leb Z.ltb Z.eqb Z.le Z.lt In
        re_fullName re_phone re_hasLower re_hasUpper re_hasDigit trim
        forallb existsb strictEq List.length
        Registration.fullName Registration.phone Registration.password
        Registration.confirmPassword Registration.nationalId Registration.userType
        Registration.address
        EditProfile.fullName EditProfile.phone EditProfile.nationalId EditProfile.userType
        EditProfile.address
        Address.addressLine1 Address.addressLine2 Address.city Address.zipCode].

Ltac rest_validate :=
  repeat match goal with
         | |- context [@Yup.validate ?A ?P ?s ?p ?v ?x] =>
             let t := constr:(@Yup.validate A P s p v x) in
             let t' := eval rest_red in t in
             change t with t'
         end.

Ltac rest_unfold :=
  cbv beta delta [Registration.validateAt_fullName Registration.validateAt_address
                  Registration.validateAt_phone Registration.validateAt_password
                  Registration.validateAt_confirmPassword
                  EditProfile.validateAt_fullName EditProfile.validateAt_address
                  EditProfile.validateAt_phone
                  Yup.validateField Yup.resolve];
  cbn [Registration.createRegistrationValidationSchema_rest
       EditProfile.editProfileFormValidationSchema_rest
       Registration.Rest.fullName Registration.Rest.address Registration.Rest.phone
       Registration.Rest.password Registration.Rest.confirmPassword
       EditProfile.Rest.fullName EditProfile.Rest.address EditProfile.Rest.phone
       Yup.always YupMore.oneOfRef Yup.conditions Yup.base fold_left app].

Lemma re_fullName_not_empty (s : string) :
  re_fullName s = true -> Nat.eqb (String.length s) 0 = false.
Proof. destruct s; [discriminate | reflexivity]. Qed.

(** X5: in both forms the full name is trimmed and then must be two words
    or more of letters with single spaces between them.  A null or absent
    name is reported as required; a present one that does not fit, the
    empty string included, is reported with the message of the pattern. *)
Theorem fullName_rule (cities : list string) :
  FullNameRule Registration.fullName (Registration.validateAt_fullName cities)
  /\ FullNameRule EditProfile.fullName (EditProfile.validateAt_fullName cities).
Proof.
  split; intros values; rest_unfold; (split; [| intros s Hs; rewrite Hs]).
  1, 3: intros [H | H]; rewrite H; reflexivity.
  all: rewrite <- re_fullName_spec; rest_validate; rewrite trim_test;
    pose proof (re_fullName_not_empty (trim s)) as Hne;
    destruct (re_fullName (trim s));
    [ rewrite (Hne eq_refl); split; [split; reflexivity | intros H; exfalso; apply H; reflexivity]
    | destruct (Nat.eqb (String.length (trim s)) 0);
      (split; [split; discriminate | reflexivity]) ].
Qed.

Lemma digitsOnly_spec (l : list ascii) :
  digitsOnly l = true <-> l <> [] /\ Forall (fun c => isDigit c = true) l.
Proof.
  unfold digitsOnly. rewrite andb_true_iff, negb_true_iff, Nat.eqb_neq, forallb_Forall.
  destruct l; simpl; intuition congruence.
Qed.

Lemma re_phone_spec (s : string) : re_phone s = true <-> PhoneNumber (chars s).
Proof.
  unfold re_phone, PhoneNumber. destruct (chars s) as [|c l].
  - split; [discriminate |]. intros [digits [Hne [_ [H | H]]]]; [congruence | discriminate].
  - destruct (isPlus c) eqn:Hc.
    + apply isPlus_plus in Hc. subst c. rewrite digitsOnly_spec. split.
      * intros [Hne Hall]. exists l. split; [exact Hne |]. split; [exact Hall |].
        right. reflexivity.
      * intros [digits [Hne [Hall [H | H]]]].
        -- subst digits. inversion Hall; subst. discriminate.
        -- injection H as ->. split; assumption.
    + rewrite digitsOnly_spec. split.
      * intros [Hne Hall]. exists (c :: l). split; [exact Hne |]. split; [exact Hall |].
        left. reflexivity.
      * intros [digits [Hne [Hall [H | H]]]].
        -- subst digits. split; assumption.
        -- injection H as -> _. discriminate Hc.
Qed.

Lemma re_phone_not_sign (s : string) :
  re_phone s = true -> String.eqb s "" = false /\ String.eqb s "+" = false.
Proof.
  intros H. split; apply String.eqb_neq; intros ->; discriminate H.
Qed.

(** X6: in both forms the phone number passes exactly when it is a run of
    digits, with or without a plus sign in front; nothing is trimmed.  A
    null, absent or empty value and a lone plus sign are reported as
    required; any other value that does not fit is reported with the
    message of the pattern alone. *)
Theorem phone_rule (cities : list string) :
  PhoneRule Registration.phone (Registration.validateAt_phone cities)
  /\ PhoneRule EditProfile.phone (EditProfile.validateAt_phone cities).
Proof.
  split; intros values; rest_unfold; (split; [| split]).
  1, 4: intros [H | H]; rewrite H; reflexivity.
  1, 3: intros [H | H]; rewrite H; reflexivity.
  all: intros s Hs; rewrite Hs, <- re_phone_spec; rest_validate;
    pose proof (re_phone_not_sign s) as Hsign;
    destruct (re_phone s);
    [ destruct (Hsign eq_refl) as [He Hp]; rewrite He, Hp;
      assert (Hlen : Nat.eqb (String.length s) 0 = false)
        by (destruct s; [discriminate He | reflexivity]);
      rewrite Hlen;
      split; [split; reflexivity | intros _ _ H; exfalso; apply H; reflexivity]
    | split; [split; [| discriminate] |];
      [ destruct (Nat.eqb (String.length s) 0), (String.eqb s ""), (String.eqb s "+");
        discriminate
      | intros He Hp _; apply String.eqb_neq in He; apply String.eqb_neq in Hp;
        rewrite He, Hp;
        assert (Hlen : Nat.eqb (String.length s) 0 = false)
          by (destruct s; [rewrite String.eqb_refl in He; discriminate He | reflexivity]);
        rewrite Hlen; reflexivity ] ].
Qed.

(** X7: a password passes exactly when it has six characters or more and
    holds a lowercase letter, an uppercase letter and a digit.  The first
    error of a present password follows the order of the rules: length,
    lowercase, uppercase, digit; only a null or absent password is reported
    as required. *)
Theorem password_rule (cities : list string) (values : Registration.registrationFormType) :
  let errors := Registration.validateAt_password cities values in
  (Registration.password values = null \/ Registration.password values = undefined ->
   errors = [("password", "Password is required")])
  /\ (forall s, Registration.password values = val s ->
        (errors = []
         <-> (6 <= String.length s)%nat
             /\ Exists (fun c => isLower c = true) (chars s)
             /\ Exists (fun c => isUpper c = true) (chars s)
             /\ Exists (fun c => isDigit c = true) (chars s))
        /\ ((String.length s < 6)%nat ->
            Yup.firstError errors = Some "Password must be at least 6 characters")
        /\ ((6 <= String.length s)%nat ->
            ~ Exists (fun c => isLower c = true) (chars s) ->
            Yup.firstError errors
            = Some "Password must contain at least one lowercase letter")
        /\ ((6 <= String.length s)%nat ->
            Exists (fun c => isLower c = true) (chars s) ->
            ~ Exists (fun c => isUpper c = true) (chars s) ->
            Yup.firstError errors
            = Some "Password must contain at least one uppercase letter")
        /\ ((6 <= String.length s)%nat ->
            Exists (fun c => isLower c = true) (chars s) ->
            Exists (fun c => isUpper c = true) (chars s) ->
            ~ Exists (fun c => isDigit c = true) (chars s) ->
            Yup.firstError errors = Some "Password must contain at least one digit")).
Proof.
  cbv zeta. rest_unfold. split.
  - intros [H | H]; rewrite H; reflexivity.
  - intros s Hs. rewrite Hs.
    rewrite <- (existsb_Exists isLower), <- (existsb_Exists isUpper),
      <- (existsb_Exists isDigit).
    fold (re_hasLower s) (re_hasUpper s) (re_hasDigit s).
    rewrite <- Nat.leb_le, <- Nat.leb_gt.
    rest_validate.
    assert (Hlen : Nat.leb 6 (String.length s) = true ->
                   Nat.eqb (String.length s) 0 = false).
    { intros H. apply Nat.leb_le in H. apply Nat.eqb_neq. lia. }
    destruct (Nat.leb 6 (String.length s)).
    + rewrite (Hlen eq_refl).
      destruct (re_hasLower s), (re_hasUpper s), (re_hasDigit s); cbv beta iota;
        intuition (try discriminate; try reflexivity; try congruence).
    + destruct (Nat.eqb (String.length s) 0), (re_hasLower s), (re_hasUpper s),
        (re_hasDigit s); cbv beta iota;
        intuition (try discriminate; try reflexivity; try congruence).
Qed.

Lemma password_rule_witness :
  Registration.validateAt_password []
    (registrationValuesWithPasswords (val "Secret1x") (val "Secret1x")) = []
  /\ Yup.firstError
       (Registration.validateAt_password []
          (registrationValuesWithPasswords (val "") (val "")))
     = Some "Password must be at least 6 characters".
Proof.
  split.
  - destruct (password_rule [] (registrationValuesWithPasswords (val "Secret1x")
                                                                (val "Secret1x")))
      as [_ H].
    destruct (H "Secret1x" eq_refl) as [Hiff _].
    apply Hiff. split; [simpl; lia |].
    split; [| split]; apply existsb_Exists; reflexivity.
  - destruct (password_rule [] (registrationValuesWithPasswords (val "") (val "")))
      as [_ H].
    destruct (H "" eq_refl) as [_ [Hshort _]].
    apply Hshort. simpl. lia.
Defined.

(** X8: the confirmation passes exactly when it is the password and is not
    empty.  A confirmation that differs from the password is reported as a
    mismatch, and with that message alone; an empty confirmation of an
    empty password, or a null or absent one, is reported as required. *)
Theorem confirmPassword_rule (cities : list string)
        (values : Registration.registrationFormType) :
  let errors := Registration.validateAt_confirmPassword cities values in
  (Registration.confirmPassword values = null
   \/ Registration.confirmPassword values = undefined ->
   errors = [("confirmPassword", "Confirm Password is required")])
  /\ (forall c, Registration.confirmPassword values = val c ->
        (errors = [] <-> Registration.password values = val c /\ c <> "")
        /\ (Registration.password values <> val c ->
            errors = [("confirmPassword", "Passwords must match")])
        /\ (Registration.password values = val c -> c = "" ->
            errors = [("confirmPassword", "Confirm Password is required")])).
Proof.
  cbv zeta. rest_unfold. split.
  - intros [H | H]; rewrite H; reflexivity.
  - intros c Hc. rewrite Hc. rest_validate.
    destruct (strictEq (Registration.password values) c) eqn:Heq.
    + assert (Hp : Registration.password values = val c).
      { destruct (Registration.password values) as [ | | p]; try discriminate.
        apply String.eqb_eq in Heq. rewrite Heq. reflexivity. }
      destruct (Nat.eqb (String.length c) 0) eqn:Hlen; cbv beta iota.
      * assert (c = "") by (destruct c; [reflexivity | discriminate Hlen]).
        subst c. intuition (try discriminate; try reflexivity; try congruence).
      * assert (c <> "") by (intros ->; discriminate Hlen).
        intuition (try discriminate; try reflexivity; try congruence).
    + assert (Hp : Registration.password values <> val c).
      { intros H. rewrite H in Heq. cbn [strictEq] in Heq.
        rewrite String.eqb_refl in Heq. discriminate Heq. }
      cbv beta iota.
      intuition (try discriminate; try reflexivity; try congruence).
Qed.

Lemma confirmPassword_rule_witness :
  Registration.validateAt_confirmPassword []
    (registrationValuesWithPasswords (val "Secret1x") (val "Secret1y"))
  = [("confirmPassword", "Passwords must match")].
Proof.
  destruct (confirmPassword_rule [] (registrationValuesWithPasswords (val "Secret1x")
                                                                       (val "Secret1y")))
    as [_ H].
  destruct (H "Secret1y" eq_refl) as [_ [Hdiffer _]].
  apply Hdiffer. discriminate.
Defined.

(** ** The address and the national id *)

(** The errors of a schema without fields of its own carry its path. *)
Lemma leaf_paths {A P : Type} (s : Yup.Schema A P) (path : string) (v : Js A) (parent : P)
      (e : Yup.ValidationError) :
  (forall a, Yup.nested s a = []) ->
  In e (Yup.validate s path v parent) -> fst e = path.
Proof.
  intros Hleaf. unfold Yup.validate, Yup.validateValue, Yup.at_.
  destruct (Yup.cast s v) as [ | | a]; try rewrite Hleaf; cbn [Yup.under map app];
    intros H; apply in_map_iff in H; destruct H as [m [<- _]]; reflexivity.
Qed.

Section AddressFields.

Context {P : Type} (parent : P).

Lemma addressLine1_passes_iff (v : Js string) :
  Yup.validate Registration.addressLine1Schema "addressLine1" v parent = []
  <-> exists line, v = val line /\ trim line <> "".
Proof.
  destruct v as [ | | line].
  - split; [discriminate | intros [l [H _]]; discriminate].
  - split; [discriminate | intros [l [H _]]; discriminate].
  - rest_validate. rewrite trim_test.
    destruct (Nat.eqb (String.length (trim line)) 0) eqn:E; cbv beta iota.
    + split; [discriminate |]. intros [l [H Hl]]. injection H as ->.
      destruct (trim l); [contradiction | discriminate E].
    + split; [| reflexivity]. intros _. exists line. split; [reflexivity |].
      intros H. rewrite H in E. discriminate E.
Qed.

Lemma addressLine2_passes_iff (v : Js string) :
  Yup.validate Registration.addressLine2Schema "addressLine2" v parent = [] <-> v <> null.
Proof.
  destruct v as [ | | line].
  - split; [discriminate | reflexivity].
  - split; [discriminate | congruence].
  - rest_validate. rewrite trim_test. split; [discriminate | reflexivity].
Qed.

Lemma city_errors (cities : list string) (city : string) :
  Yup.validate (Registration.citySchema cities) "city" (val city) parent
  = if existsb (String.eqb city) cities
    then if Nat.eqb (String.length city) 0 then [("city", "City is required")] else []
    else [("city", "Invalid city selected")].
Proof.
  rest_validate.
  destruct (existsb (String.eqb city) cities), (Nat.eqb (String.length city) 0); reflexivity.
Qed.

Lemma city_passes_iff (cities : list string) (v : Js string) :
  Yup.validate (Registration.citySchema cities) "city" v parent = []
  <-> exists city, v = val city /\ In city cities /\ city <> "".
Proof.
  destruct v as [ | | city].
  - split; [discriminate | intros [c [H _]]; discriminate].
  - split; [discriminate | intros [c [H _]]; discriminate].
  - rewrite city_errors.
    destruct (existsb (String.eqb city) cities) eqn:Hin.
    + apply existsb_eqb_In in Hin.
      destruct (Nat.eqb (String.length city) 0) eqn:E.
      * split; [discriminate |]. intros [c [H [_ Hc]]]. injection H as ->.
        destruct c; [contradiction | discriminate E].
      * split; [| reflexivity]. intros _. exists city.
        split; [reflexivity |]. split; [exact Hin |]. intros ->. discriminate E.
    + split; [discriminate |]. intros [c [H [Hc _]]]. injection H as ->.
      apply existsb_eqb_In in Hc. congruence.
Qed.

Lemma zipCode_errors (zip : string) :
  Yup.validate Registration.zipCodeSchema "zipCode" (val zip) parent
  = (if Nat.leb 3 (String.length (trim zip)) then [] else [("zipCode", "Too short")])
    ++ (if Nat.leb (String.length (trim zip)) 10 then [] else [("zipCode", "Too long")])
    ++ (if Nat.eqb (String.length (trim zip)) 0
        then [("zipCode", "Zip / Postal Code is required")] else []).
Proof.
  rest_validate. rewrite trim_test.
  destruct (Nat.leb 3 (String.length (trim zip))), (Nat.leb (String.length (trim zip)) 10),
    (Nat.eqb (String.length (trim zip)) 0); reflexivity.
Qed.

Lemma zipCode_passes_iff (v : Js string) :
  Yup.validate Registration.zipCodeSchema "zipCode" v parent = []
  <-> exists zip, v = val zip /\ (3 <= String.length (trim zip) <= 10)%nat.
Proof.
  destruct v as [ | | zip].
  - split; [discriminate | intros [z [H _]]; discriminate].
  - split; [discriminate | intros [z [H _]]; discriminate].
  - rewrite zipCode_errors.
    destruct (Nat.leb_spec 3 (String.length (trim zip))) as [H3 | H3];
      destruct (Nat.leb_spec (String.length (trim zip)) 10) as [H10 | H10];
      destruct (Nat.eqb_spec (String.length (trim zip)) 0) as [H0 | H0];
      cbn [app]; split;
      try discriminate; try reflexivity; try lia;
      try (intros _; exists zip; split; [reflexivity | lia]);
      try (intros [z [H Hz]]; injection H as ->; lia).
Qed.

End AddressFields.

Lemma address_errors (cities : list string) (values : Registration.registrationFormType) :
  Registration.validateAt_address cities values
  = Yup.under "address"
      (Yup.validate Registration.addressLine1Schema "addressLine1"
         (Address.addressLine1 (Registration.address values)) (Registration.address values)
       ++ Yup.validate Registration.addressLine2Schema "addressLine2"
            (Address.addressLine2 (Registration.address values))
            (Registration.address values)
       ++ Yup.validate (Registration.citySchema cities) "city"
            (Address.city (Registration.address values)) (Registration.address values)
       ++ Yup.validate Registration.zipCodeSchema "zipCode"
            (Address.zipCode (Registration.address values)) (Registration.address values)).
Proof.
  rest_unfold. unfold Yup.validate at 1, Yup.validateValue. cbn. rewrite app_nil_r.
  reflexivity.
Qed.

(** X9: the address passes exactly when its first line is not blank once
    trimmed, its second line is not null, its city is a non-empty member of
    the list of cities and its zip code has three to ten characters once
    trimmed.  A city outside the list, the empty string included, is
    reported as an invalid selection and never as required; a zip code that
    is too short or too long is reported so. *)
Theorem address_rule (cities : list string) (values : Registration.registrationFormType) :
  let errors := Registration.validateAt_address cities values in
  (errors = [] <-> validAddress cities (Registration.address values))
  /\ (forall city, Address.city (Registration.address values) = val city ->
        ~ In city cities ->
        In ("address.city", "Invalid city selected") errors
        /\ ~ In ("address.city", "City is required") errors)
  /\ (forall zip, Address.zipCode (Registration.address values) = val zip ->
        ((String.length (trim zip) < 3)%nat -> In ("address.zipCode", "Too short") errors)
        /\ ((10 < String.length (trim zip))%nat ->
            In ("address.zipCode", "Too long") errors)).
Proof.
  cbv zeta. rewrite address_errors.
  set (address := Registration.address values).
  split; [| split].
  - rewrite under_nil. unfold validAddress.
    rewrite <- (addressLine1_passes_iff address), <- (addressLine2_passes_iff address),
      <- (city_passes_iff address cities), <- (zipCode_passes_iff address).
    split.
    + intros H. apply app_eq_nil in H. destruct H as [H1 H].
      apply app_eq_nil in H. destruct H as [H2 H].
      apply app_eq_nil in H. destruct H as [H3 H4]. auto.
    + intros [H1 [H2 [H3 H4]]]. rewrite H1, H2, H3, H4. reflexivity.
  - intros city Hcity Hout. rewrite Hcity, city_errors.
    assert (Hb : existsb (String.eqb city) cities = false).
    { destruct (existsb (String.eqb city) cities) eqn:E; [| reflexivity].
      apply existsb_eqb_In in E. contradiction. }
    rewrite Hb. unfold Yup.under. rewrite !map_app. cbn [map fst snd].
    split.
    + apply in_or_app. right. apply in_or_app. right. apply in_or_app. left.
      left. reflexivity.
    + assert (Hpath : forall (schema : Yup.Schema string Address.t) field v e,
                 (forall a, Yup.nested schema a = []) ->
                 field <> "city" ->
                 In e (map (fun e => ("address" ++ "." ++ fst e, snd e)%string)
                           (Yup.validate schema field v address)) ->
                 e <> ("address.city", "City is required")).
      { intros schema field v e Hleaf Hfield H He. apply in_map_iff in H.
        destruct H as [e' [H Hin]]. apply leaf_paths in Hin; [| exact Hleaf].
        rewrite Hin, He in H. injection H as H _. apply Hfield. exact H. }
      intros H. apply in_app_or in H. destruct H as [H | H].
      * revert H. intros H. eapply Hpath in H; [apply H; reflexivity | reflexivity |].
        discriminate.
      * apply in_app_or in H. destruct H as [H | H].
        -- eapply Hpath in H; [apply H; reflexivity | reflexivity |]. discriminate.
        -- apply in_app_or in H. destruct H as [H | H].
           ++ destruct H as [H | []]. discriminate H.
           ++ eapply Hpath in H; [apply H; reflexivity | reflexivity |]. discriminate.
  - intros zip Hzip. rewrite Hzip, zipCode_errors.
    unfold Yup.under. rewrite !map_app.
    split; intros H.
    + apply Nat.leb_gt in H. rewrite H.
      apply in_or_app. right. apply in_or_app. right. apply in_or_app. right.
      left. reflexivity.
    + apply Nat.leb_gt in H. rewrite H.
      apply in_or_app. right. apply in_or_app. right. apply in_or_app. right.
      cbn [app map fst snd].
      destruct (Nat.leb 3 (String.length (trim zip))); cbn [app map fst snd];
        [left | right; left]; reflexivity.
Qed.

Ltac solve_nationalId :=
  intros values; split;
  [ intros Hu; apply strictEq_false in Hu; rewrite Hu; reflexivity
  | intros Hu; apply strictEq_true in Hu; rewrite Hu;
    rewrite <- truthyString_present;
    match goal with
    | |- context [Yup.validate _ _ ?v _] =>
        let nid := fresh "nid" in
        destruct v as [ | | nid];
        [ split; [split; discriminate | reflexivity]
        | split; [split; discriminate | reflexivity]
        | rest_validate; cbn [truthyString];
          destruct nid; cbn;
          (split; [split; (reflexivity || discriminate)
                  | intros H; (reflexivity || (exfalso; apply H; reflexivity))]) ]
    end ].

(** X10: in both forms the national id is required of a pensioner, for whom
    a null, absent or empty id is reported so; for every other user type the
    field is stripped and gives no error, whatever it holds. *)
Theorem nationalId_rule :
  NationalIdRule Registration.userType Registration.nationalId
                 Registration.validateAt_nationalId
  /\ NationalIdRule EditProfile.userType EditProfile.nationalId
                    EditProfile.validateAt_nationalId.
Proof.
  split.
  - unfold Registration.validateAt_nationalId, Registration.nationalIdSchema.
    solve_nationalId.
  - unfold EditProfile.validateAt_nationalId, EditProfile.nationalIdSchema.
    solve_nationalId.
Qed.

(** ** The file rules of the edit form, and its initial values *)

Lemma withinSizeLimit_false (files : list Upload) :
  forallb EditProfile.withinSizeLimit files = false <-> Exists tooLargeForEdit files.
Proof.
  induction files as [|item files IH]; cbn [forallb].
  - split; [discriminate | intros H; inversion H].
  - rewrite andb_false_iff, IH. split.
    + intros [H | H]; [left | right; exact H].
      destruct item as [f | s | size type]; cbn in H.
      * left. exists f. split; [reflexivity |]. apply Z.leb_gt. exact H.
      * discriminate H.
      * right. exists size, type. reflexivity.
    + intros H. inversion H as [? ? Hx | ? ? Hx]; subst; [left | right; exact Hx].
      destruct Hx as [[f [-> Hf]] | [size [type ->]]]; cbn.
      * apply Z.leb_gt. exact Hf.
      * reflexivity.
Qed.

(** X11: the proof-file rule of the edit form accepts null and an absent
    value, and a list exactly when each element is a stored reference or a
    file of at most 2 MB with a supported MIME type.  It has two messages
    only: its first error is the one of the size exactly when some element
    is a file over the limit or neither a file nor a string. *)
Theorem edit_proof_file_rule (P : Type) (parent : P) (path : string) :
  Yup.validate EditProfile.proofFileSchema path null parent = []
  /\ Yup.validate EditProfile.proofFileSchema path undefined parent = []
  /\ (forall files,
         Yup.validate EditProfile.proofFileSchema path (val files) parent = []
         <-> Forall validStoredOrNew files)
  /\ (forall value e,
         In e (Yup.validate EditProfile.proofFileSchema path value parent) ->
         e = (path, "File too large (max 2MB)")
         \/ e = (path, "Unsupported file format (only JPG, JPEG, GIF, PNG, PDF, DOC, DOCX, TXT)"))
  /\ (forall files,
         Yup.firstError (Yup.validate EditProfile.proofFileSchema path (val files) parent)
         = Some "File too large (max 2MB)"
         <-> Exists tooLargeForEdit files).
Proof.
  split; [reflexivity |]. split; [reflexivity |].
  split; [intros files; apply edit_proof_passes_iff |].
  split.
  - intros [ | | files] e; try (intros []).
    rewrite edit_proof_errors.
    destruct (forallb EditProfile.withinSizeLimit files),
      (forallb EditProfile.ofSupportedFormat files); cbn [app In];
      intuition (subst; auto).
  - intros files. rewrite edit_proof_errors, <- withinSizeLimit_false.
    destruct (forallb EditProfile.withinSizeLimit files),
      (forallb EditProfile.ofSupportedFormat files);
      cbn; split; (reflexivity || discriminate).
Qed.

Lemma references_are_valid (urls : list string) : Forall validStoredOrNew (map UString urls).
Proof.
  induction urls as [|url urls IH]; cbn [map]; constructor; [| exact IH].
  left. exists url. reflexivity.
Qed.

(** X12: whatever the profile holds, the avatar and the two proof lists the
    edit form starts from are stored references or null, and pass the image
    rule and the proof-file rule of the edit form. *)
Theorem initial_values_pass_file_rules (newDate : string -> JsDate)
        (data : EditProfile.Profile.t) (userEmail : string) (P : Type) (parent : P) :
  let form := EditProfile.setDefaultValuesInEditForm newDate data userEmail in
  Yup.validate EditProfile.imageFileSchema "profilePic" (EditProfile.profilePic form) parent
  = []
  /\ Yup.validate EditProfile.proofFileSchema "nationalIdProof"
       (EditProfile.nationalIdProof form) parent = []
  /\ (exists sch,
         EditProfile.school form = val sch
         /\ Yup.validate EditProfile.proofFileSchema "proof" (School.proof sch) parent = []).
Proof.
  cbv zeta. unfold EditProfile.setDefaultValuesInEditForm.
  cbn [EditProfile.profilePic EditProfile.nationalIdProof EditProfile.school].
  split; [| split].
  - unfold EditProfile.referenceOrNull.
    destruct (EditProfile.Profile.avatar_url data) as [ | | url]; try reflexivity.
    cbn [truthyString]. destruct (negb (String.eqb url "")); reflexivity.
  - destruct (EditProfile.Profile.national_id_proof_url data) as [ | | urls];
      try reflexivity.
    apply edit_proof_passes_iff. apply references_are_valid.
  - eexists. split; [reflexivity |]. cbn [School.proof].
    destruct (EditProfile.Profile.student_proof_url data) as [ | | urls];
      try reflexivity.
    apply edit_proof_passes_iff. apply references_are_valid.
Qed.

(** X13: for a profile whose user type is not student, the school block the
    edit form starts from passes exactly when the profile has no school
    name, no school id, no school expiry and no reference in its student
    proof; otherwise the form starts with the students-only error on its
    school. *)
Theorem initial_school_of_other_users (newDate : string -> JsDate)
        (calculateAge : JsDate -> JsNumber) (loadTime : Z) (cities : list string) (now : Z)
        (data : EditProfile.Profile.t) (userEmail : string) :
  EditProfile.Profile.user_type data <> val "student" ->
  let errors :=
    EditProfile.validateAt_school calculateAge loadTime cities now
      (EditProfile.setDefaultValuesInEditForm newDate data userEmail) in
  (errors = []
   <-> missingText (EditProfile.Profile.school_name data)
       /\ missingText (EditProfile.Profile.school_id data)
       /\ noReferences (EditProfile.Profile.student_proof_url data)
       /\ missingText (EditProfile.Profile.school_expiry data))
  /\ (errors = [] \/ errors = [("school", msgStudentsOnly)]).
Proof.
  intros Htype. cbv zeta.
  assert (Hu : EditProfile.userType
                 (EditProfile.setDefaultValuesInEditForm newDate data userEmail)
               <> val "student").
  { cbn. destruct (EditProfile.Profile.user_type data) as [ | | t]; cbn;
      try discriminate.
    destruct (String.eqb t "") eqn:E; [discriminate |].
    intros H. apply Htype. injection H as ->. reflexivity. }
  rewrite (edit_other_school calculateAge loadTime cities now _ Hu).
  cbn [EditProfile.setDefaultValuesInEditForm EditProfile.school].
  match goal with |- context [hasData ?s] => set (sch := s) end.
  assert (Hdata : hasData sch = false
                  <-> missingText (EditProfile.Profile.school_name data)
                      /\ missingText (EditProfile.Profile.school_id data)
                      /\ noReferences (EditProfile.Profile.student_proof_url data)
                      /\ missingText (EditProfile.Profile.school_expiry data)).
  { unfold hasData, sch. cbn [School.name School.id School.proof School.expiry].
    rewrite !orb_false_iff.
    assert (Htext : forall column,
               truthyString (val (orString column "")) = false <-> missingText column).
    { intros [ | | s]; unfold missingText; cbn.
      - split; auto.
      - split; auto.
      - destruct (String.eqb s "") eqn:E; cbn.
        + apply String.eqb_eq in E. subst s. split; auto.
        + rewrite E. split; [discriminate |].
          intros [H | [H | H]]; try discriminate. injection H as ->. discriminate E. }
    assert (Hlist : match EditProfile.referencesOrNull
                            (EditProfile.Profile.student_proof_url data) with
                    | val files => negb (Nat.eqb (List.length files) 0)
                    | _ => false
                    end = false
                    <-> noReferences (EditProfile.Profile.student_proof_url data)).
    { unfold noReferences.
      destruct (EditProfile.Profile.student_proof_url data) as [ | | [|u urls]]; cbn.
      - split; auto.
      - split; auto.
      - split; auto.
      - split; [discriminate |]. intros [H | [H | H]]; discriminate. }
    assert (Hdate : truthyObject (EditProfile.dateOrNull newDate
                                    (EditProfile.Profile.school_expiry data)) = false
                    <-> missingText (EditProfile.Profile.school_expiry data)).
    { unfold missingText.
      destruct (EditProfile.Profile.school_expiry data) as [ | | s]; cbn.
      - split; auto.
      - split; auto.
      - destruct (String.eqb s "") eqn:E; cbn.
        + apply String.eqb_eq in E. subst s. split; auto.
        + split; [discriminate |].
          intros [H | [H | H]]; try discriminate. injection H as ->. discriminate E. }
    rewrite !Htext, Hlist, Hdate. tauto. }
  destruct (hasData sch).
  - split; [| right; reflexivity].
    split; [discriminate |]. intros H. apply Hdata in H. discriminate H.
  - split; [| left; reflexivity].
    split; [| reflexivity]. intros _. apply Hdata. reflexivity.
Qed.

(** ** The school of the edit form *)

Lemma edit_schoolProof_passes_iff (P : Type) (parent : P) (v : Js (list Upload)) :
  Yup.validate EditProfile.schoolProof "proof" v parent = []
  <-> exists files, v = val files /\ Forall validStoredOrNew files.
Proof.
  destruct v as [ | | files].
  - split; [discriminate | intros [l [H _]]; discriminate].
  - split; [discriminate | intros [l [H _]]; discriminate].
  - change (Yup.validate EditProfile.schoolProof "proof" (val files) parent)
      with (Yup.validate EditProfile.proofFileSchema "proof" (val files) parent).
    rewrite edit_proof_passes_iff. split.
    + intros H. exists files. split; [reflexivity | exact H].
    + intros [l [H Hl]]. injection H as ->. exact Hl.
Qed.

Lemma edit_student_school (calculateAge : JsDate -> JsNumber)
      (loadTime : Z) (cities : list string) (now : Z)
      (values : EditProfile.editFormType) (sch : School.t) :
  EditProfile.userType values = val "student" ->
  EditProfile.school values = val sch ->
  EditProfile.validateAt_school calculateAge loadTime cities now values
  = Yup.under "school"
      (Yup.validate EditProfile.schoolName "name" (School.name sch) sch
       ++ Yup.validate EditProfile.schoolId "id" (School.id sch) sch
       ++ Yup.validate EditProfile.schoolProof "proof" (School.proof sch) sch
       ++ Yup.validate (EditProfile.schoolExpiry loadTime) "expiry" (School.expiry sch) sch).
Proof.
  intros Hu Hs. form_unfold. rewrite Hs, Hu. cbn [valuesToString].
  rewrite String.eqb_refl.
  unfold Yup.validate at 1, Yup.validateValue. cbn. rewrite app_nil_r. reflexivity.
Qed.

(** X16: in the edit form the school of a student passes exactly when its
    name, id, proof and expiry are present and valid, where a proof may hold
    stored references beside new files; a null or absent school is refused.
    For any other user type the school is refused with the students-only
    message as soon as it holds data, and passes when it is absent or
    empty. *)
Theorem edit_school_rule (calculateAge : JsDate -> JsNumber)
        (loadTime : Z) (cities : list string) (now : Z)
        (values : EditProfile.editFormType) :
  let errors := EditProfile.validateAt_school calculateAge loadTime cities now values in
  (EditProfile.userType values = val "student" ->
     (EditProfile.school values = undefined \/ EditProfile.school values = null ->
      errors <> [])
     /\ (forall sch, EditProfile.school values = val sch ->
           (errors = [] <-> validSchoolForEdit loadTime sch)))
  /\ (EditProfile.userType values <> val "student" ->
        (EditProfile.school values = undefined -> errors = [])
        /\ (forall sch, EditProfile.school values = val sch ->
              (errors = []
               <-> ~ (presentText (School.name sch) \/ presentText (School.id sch)
                      \/ presentList (School.proof sch) \/ present (School.expiry sch)))
              /\ (errors = [] \/ errors = [("school", msgStudentsOnly)]))).
Proof.
  cbv zeta. split.
  - intros Hu. split.
    + intros [Hs | Hs]; form_unfold; rewrite Hs, Hu; yup_reduce; discriminate.
    + intros sch Hs. rewrite (edit_student_school _ _ _ _ values sch Hu Hs).
      rewrite under_nil. unfold validSchoolForEdit.
      change (@EditProfile.schoolName School.t) with (@Registration.schoolName School.t).
      change (@EditProfile.schoolId School.t) with (@Registration.schoolId School.t).
      change (@EditProfile.schoolExpiry loadTime School.t)
        with (@Registration.schoolExpiry loadTime School.t).
      rewrite <- (schoolName_passes_iff sch), <- (schoolId_passes_iff sch),
        <- (edit_schoolProof_passes_iff School.t sch),
        <- (schoolExpiry_passes_iff loadTime sch).
      split.
      * intros H. apply app_eq_nil in H. destruct H as [H1 H].
        apply app_eq_nil in H. destruct H as [H2 H].
        apply app_eq_nil in H. destruct H as [H3 H4]. auto.
      * intros [H1 [H2 [H3 H4]]]. rewrite H1, H2, H3, H4. reflexivity.
  - intros Hu. rewrite (edit_other_school calculateAge loadTime cities now values Hu).
    split.
    + intros Hs. rewrite Hs. reflexivity.
    + intros sch Hs. rewrite Hs, <- hasData_spec.
      destruct (hasData sch).
      * split; [| right; reflexivity].
        split; [discriminate |]. intros H. exfalso. apply H. reflexivity.
      * split; [| left; reflexivity].
        split; [intros _; discriminate | reflexivity].
Qed.

(** ** The two forms side by side *)

Lemma eqb_false (s t : string) : s <> t -> String.eqb s t = false.
Proof. apply String.eqb_neq. Qed.

(** X14: in both forms, and whatever the date of birth, a null or absent
    user type is reported as required, and so is the empty one first; a
    present user type other than student, general and pension is reported
    as invalid, with that message alone. *)
Theorem userType_membership_rule (calculateAge : JsDate -> JsNumber)
        (loadTime : Z) (cities : list string) (now : Z) :
  UserTypeRule Registration.userType
               (Registration.validateAt_userType calculateAge loadTime cities now)
  /\ UserTypeRule EditProfile.userType
                  (EditProfile.validateAt_userType calculateAge loadTime cities now).
Proof.
  split; intros values; form_unfold.
  - destruct (Registration.dob values) as [ | | d];
      [ | | destruct (numLt (calculateAge d) 60), (numGe (calculateAge d) 60)];
      (split; [| split]);
      try (intros [H | H]; rewrite H; reflexivity);
      try (intros H; rewrite H; reflexivity);
      intros s Hs He Hst Hg Hp; rewrite Hs; yup_unfold; cbn [existsb];
      rewrite ?(eqb_false _ _ He), ?(eqb_false _ _ Hst), ?(eqb_false _ _ Hg),
        ?(eqb_false _ _ Hp);
      (assert (Hlen : Nat.eqb (String.length s) 0 = false)
        by (destruct s; [contradiction | reflexivity]));
      rewrite ?Hlen; reflexivity.
  - destruct (EditProfile.dob values) as [ | | d];
      [ | | destruct (numLt (calculateAge d) 60), (numGe (calculateAge d) 60)];
      (split; [| split]);
      try (intros [H | H]; rewrite H; reflexivity);
      try (intros H; rewrite H; reflexivity);
      intros s Hs He Hst Hg Hp; rewrite Hs; yup_unfold; cbn [existsb];
      rewrite ?(eqb_false _ _ He), ?(eqb_false _ _ Hst), ?(eqb_false _ _ Hg),
        ?(eqb_false _ _ Hp);
      (assert (Hlen : Nat.eqb (String.length s) 0 = false)
        by (destruct s; [contradiction | reflexivity]));
      rewrite ?Hlen; reflexivity.
Qed.

(** X15: on the same field values the two forms report the same errors for
    the full name, the phone number, the address, the user type, the date
    of birth and the national id, and for the school of a user who is not a
    student: the profile-edit schema repeats those rules of the registration
    schema. *)
Theorem forms_agree (calculateAge : JsDate -> JsNumber)
        (loadTime : Z) (cities : list string) (now : Z)
        (registration : Registration.registrationFormType)
        (edit : EditProfile.editFormType) :
  (Registration.userType registration = EditProfile.userType edit ->
   Registration.dob registration = EditProfile.dob edit ->
   Registration.validateAt_userType calculateAge loadTime cities now registration
   = EditProfile.validateAt_userType calculateAge loadTime cities now edit)
  /\ (Registration.dob registration = EditProfile.dob edit ->
      Registration.validateAt_dob calculateAge loadTime cities now registration
      = EditProfile.validateAt_dob calculateAge loadTime cities now edit)
  /\ (Registration.userType registration = EditProfile.userType edit ->
      Registration.userType registration <> val "student" ->
      Registration.school registration = EditProfile.school edit ->
      Registration.validateAt_school calculateAge loadTime cities now registration
      = EditProfile.validateAt_school calculateAge loadTime cities now edit)
  /\ (Registration.fullName registration = EditProfile.fullName edit ->
      Registration.validateAt_fullName cities registration
      = EditProfile.validateAt_fullName cities edit)
  /\ (Registration.phone registration = EditProfile.phone edit ->
      Registration.validateAt_phone cities registration
      = EditProfile.validateAt_phone cities edit)
  /\ (Registration.address registration = EditProfile.address edit ->
      Registration.validateAt_address cities registration
      = EditProfile.validateAt_address cities edit)
  /\ (Registration.userType registration = EditProfile.userType edit ->
      Registration.nationalId registration = EditProfile.nationalId edit ->
      Registration.validateAt_nationalId registration
      = EditProfile.validateAt_nationalId edit).
Proof.
  split; [| split; [| split; [| split; [| split; [| split]]]]].
  - intros Hu Hd. form_unfold. rewrite <- Hu, <- Hd.
    destruct (Registration.dob registration) as [ | | d];
      [ | | destruct (numLt (calculateAge d) 60), (numGe (calculateAge d) 60)];
      destruct (Registration.userType registration) as [ | | s];
      yup_unfold; reflexivity.
  - intros Hd. form_unfold. rewrite <- Hd.
    destruct (Registration.dob registration) as [ | | [t | ]]; yup_unfold; reflexivity.
  - intros Hu Hother Hs.
    rewrite (registration_other_school calculateAge loadTime cities now _ Hother).
    rewrite Hu in Hother.
    rewrite (edit_other_school calculateAge loadTime cities now _ Hother), Hs.
    reflexivity.
  - intros H. rest_unfold. rewrite <- H.
    destruct (Registration.fullName registration); rest_validate; reflexivity.
  - intros H. rest_unfold. rewrite <- H.
    destruct (Registration.phone registration); rest_validate; reflexivity.
  - intros H. rest_unfold. rewrite <- H. rest_validate. reflexivity.
  - intros Hu Hn.
    unfold Registration.validateAt_nationalId, Registration.nationalIdSchema,
      EditProfile.validateAt_nationalId, EditProfile.nationalIdSchema.
    rewrite <- Hu, <- Hn.
    destruct (strictEq (Registration.userType registration) "pension");
      [destruct (Registration.nationalId registration); rest_validate; reflexivity
      | reflexivity].
Qed.

(** ** Instances of the further properties *)

Lemma reset_requested_iff_witness :
  existsb isResetRequest
    (ForgotPassword.onSubmit (val "profile") "https://example.org" "ada@example.org"
       (ForgotPassword.Rejected null)
       (ForgotPassword.Resolved ForgotPassword.ResetSent)) = true
  /\ ~ In (ForgotPassword.CheckExistingEmail "ada@example.org")
          (ForgotPassword.onSubmit (val "profile") "https://example.org" "ada@example.org"
             (ForgotPassword.Rejected null)
             (ForgotPassword.Resolved ForgotPassword.ResetSent)).
Proof.
  destruct (reset_requested_iff (val "profile") "https://example.org" "ada@example.org"
              (ForgotPassword.Rejected null)
              (ForgotPassword.Resolved ForgotPassword.ResetSent)) as [Hreset [Hcheck _]].
  assert (Hfrom : presentText (val "profile")).
  { exists "profile". split; [reflexivity | discriminate]. }
  split.
  - apply Hreset. left. exact Hfrom.
  - intros H. apply Hcheck in H. apply H. exact Hfrom.
Defined.

Lemma redirect_only_after_success_witness :
  existsb isRouterPush
    (ForgotPassword.onSubmit (val "profile") "https://example.org" "ada@example.org"
       (ForgotPassword.Rejected null)
       (ForgotPassword.Resolved ForgotPassword.ResetSent)) = true.
Proof.
  destruct (redirect_only_after_success (val "profile") "https://example.org"
              "ada@example.org" (ForgotPassword.Rejected null)
              (ForgotPassword.Resolved ForgotPassword.ResetSent)) as [Hpush _].
  apply Hpush. split; reflexivity.
Defined.

Lemma fullName_rule_witness :
  Registration.validateAt_fullName []
    (registrationContact (val "  Ada Lovelace ") (val "") emptyAddress (val "general") (val ""))
  = []
  /\ Yup.firstError
       (Registration.validateAt_fullName []
          (registrationContact (val "Ada") (val "") emptyAddress (val "general") (val "")))
     = Some msgFullName.
Proof.
  destruct (fullName_rule []) as [H _].
  split.
  - destruct (H (registrationContact (val "  Ada Lovelace ") (val "") emptyAddress
                                     (val "general") (val ""))) as [_ Hs].
    destruct (Hs _ eq_refl) as [Hiff _].
    apply Hiff. apply re_fullName_spec. reflexivity.
  - destruct (H (registrationContact (val "Ada") (val "") emptyAddress
                                     (val "general") (val ""))) as [_ Hs].
    destruct (Hs _ eq_refl) as [_ Hnot].
    apply Hnot. intros Hname. apply re_fullName_spec in Hname. discriminate Hname.
Defined.

Lemma phone_rule_witness :
  Registration.validateAt_phone []
    (registrationContact (val "") (val "+94771234567") emptyAddress (val "general") (val ""))
  = []
  /\ Registration.validateAt_phone []
       (registrationContact (val "") (val "077-123") emptyAddress (val "general") (val ""))
     = [("phone", "Phone number can contain only + and numbers")].
Proof.
  destruct (phone_rule []) as [H _].
  split.
  - destruct (H (registrationContact (val "") (val "+94771234567") emptyAddress
                                     (val "general") (val ""))) as [_ [_ Hs]].
    destruct (Hs _ eq_refl) as [Hiff _].
    apply Hiff. apply re_phone_spec. reflexivity.
  - destruct (H (registrationContact (val "") (val "077-123") emptyAddress
                                     (val "general") (val ""))) as [_ [_ Hs]].
    destruct (Hs _ eq_refl) as [_ Hnot].
    apply Hnot; try discriminate.
    intros Hphone. apply re_phone_spec in Hphone. discriminate Hphone.
Defined.

Lemma address_rule_witness :
  Registration.validateAt_address exampleCities
    (registrationContact (val "") (val "") exampleAddress (val "general") (val "")) = []
  /\ In ("address.city", "Invalid city selected")
        (Registration.validateAt_address exampleCities
           (registrationContact (val "") (val "") emptyAddress (val "general") (val ""))).
Proof.
  split.
  - destruct (address_rule exampleCities
                (registrationContact (val "") (val "") exampleAddress (val "general")
                                     (val ""))) as [Hiff _].
    apply Hiff. split; [| split; [| split]].
    + eexists. split; [reflexivity |]. vm_compute. discriminate.
    + discriminate.
    + eexists. split; [reflexivity |]. split; [| discriminate].
      right. left. reflexivity.
    + eexists. split; [reflexivity |]. vm_compute. lia.
  - destruct (address_rule exampleCities
                (registrationContact (val "") (val "") emptyAddress (val "general")
                                     (val ""))) as [_ [Hcity _]].
    destruct (Hcity "" eq_refl) as [Hin _]; [| exact Hin].
    intros [H | [H | [H | []]]]; discriminate H.
Defined.

Lemma nationalId_rule_witness :
  Registration.validateAt_nationalId
    (registrationContact (val "") (val "") emptyAddress (val "pension") (val ""))
  = [("nationalId", "National ID is required for pension users")]
  /\ Registration.validateAt_nationalId
       (registrationContact (val "") (val "") emptyAddress (val "general") null)
     = [].
Proof.
  destruct nationalId_rule as [H _].
  split.
  - destruct (H (registrationContact (val "") (val "") emptyAddress (val "pension")
                                     (val ""))) as [_ Hpension].
    destruct (Hpension eq_refl) as [_ Hmissing].
    apply Hmissing. intros [s [Hs Hne]]. injection Hs as <-. apply Hne. reflexivity.
  - destruct (H (registrationContact (val "") (val "") emptyAddress (val "general") null))
      as [Hother _].
    apply Hother. discriminate.
Defined.

Lemma edit_proof_file_rule_witness :
  Yup.validate EditProfile.proofFileSchema "nationalIdProof"
    (val [UString "proofs/id.pdf"; pdfOfOneMegabyte]) tt = [].
Proof.
  destruct (edit_proof_file_rule unit tt "nationalIdProof") as [_ [_ [Hiff _]]].
  apply Hiff. constructor; [| constructor; [| constructor]].
  - left. eexists. reflexivity.
  - right. eexists. split; [reflexivity |].
    split; [unfold FILE_SIZE_LIMIT; simpl; lia |]. simpl. tauto.
Defined.

Lemma initial_school_of_other_users_witness :
  EditProfile.validateAt_school exampleAge 0 [] exampleNow
    (EditProfile.setDefaultValuesInEditForm (fun _ => InvalidDate)
       (profileWithEmail null) "ada@example.org") = [].
Proof.
  destruct (initial_school_of_other_users (fun _ => InvalidDate) exampleAge 0 []
              exampleNow (profileWithEmail null) "ada@example.org" ltac:(discriminate))
    as [Hiff _].
  apply Hiff. unfold missingText, noReferences. cbn.
  split; [| split; [| split]]; (left; reflexivity) || (right; left; reflexivity).
Defined.

Lemma edit_school_rule_witness :
  EditProfile.validateAt_school exampleAge 0 [] exampleNow
    (editValues (val "student") null
       (val {| School.name := val "Springfield High"; School.id := val "SH-2024";
               School.proof := val [UString "proofs/card.png"];
               School.expiry := val (ValidDate exampleNow) |}) null)
  = []
  /\ EditProfile.validateAt_school exampleAge 0 [] exampleNow
       (editValues (val "general") null
          (val {| School.name := val "Springfield High"; School.id := val "";
                  School.proof := null; School.expiry := null |}) null)
     = [("school", msgStudentsOnly)].
Proof.
  split.
  - destruct (edit_school_rule exampleAge 0 [] exampleNow
                (editValues (val "student") null
                   (val {| School.name := val "Springfield High"; School.id := val "SH-2024";
                           School.proof := val [UString "proofs/card.png"];
                           School.expiry := val (ValidDate exampleNow) |}) null))
      as [Hstudent _].
    destruct (Hstudent eq_refl) as [_ Hsch].
    apply (Hsch _ eq_refl). split; [| split; [| split]].
    + eexists. split; [reflexivity |]. vm_compute. lia.
    + eexists. split; [reflexivity |]. split; [vm_compute; discriminate |].
      vm_compute. repeat (apply Forall_cons; [auto 10 |]). apply Forall_nil.
    + eexists. split; [reflexivity |]. constructor; [| constructor].
      left. eexists. reflexivity.
    + eexists. split; [reflexivity |]. unfold exampleNow. lia.
  - destruct (edit_school_rule exampleAge 0 [] exampleNow
                (editValues (val "general") null
                   (val {| School.name := val "Springfield High"; School.id := val "";
                           School.proof := null; School.expiry := null |}) null))
      as [_ Hother].
    destruct (Hother ltac:(discriminate)) as [_ Hsch].
    destruct (Hsch _ eq_refl) as [Hiff [Hnone | Hone]]; [| exact Hone].
    exfalso. apply Hiff in Hnone. apply Hnone. left.
    eexists. split; [reflexivity | discriminate].
Defined.

Lemma userType_membership_rule_witness :
  Registration.validateAt_userType exampleAge 0 [] exampleNow
    (registrationValues (val "teacher") (val (bornYearsAgo 30)) (val emptySchool) null)
  = [("userType", "Invalid user type")].
Proof.
  destruct (userType_membership_rule exampleAge 0 [] exampleNow) as [H _].
  destruct (H (registrationValues (val "teacher") (val (bornYearsAgo 30)) (val emptySchool)
                                  null)) as [_ [_ Hs]].
  apply (Hs "teacher" eq_refl); discriminate.
Defined.

Lemma forms_agree_witness :
  Registration.validateAt_userType exampleAge 0 [] exampleNow
    (registrationValues (val "pension") (val (bornYearsAgo 30)) (val emptySchool) null)
  = EditProfile.validateAt_userType exampleAge 0 [] exampleNow
      (editValues (val "pension") (val (bornYearsAgo 30)) null null)
  /\ Registration.validateAt_school exampleAge 0 [] exampleNow
       (registrationValues (val "general") null (val emptySchool) null)
     = EditProfile.validateAt_school exampleAge 0 [] exampleNow
         (editValues (val "general") (val InvalidDate) (val emptySchool) null).
Proof.
  split.
  - destruct (forms_agree exampleAge 0 [] exampleNow
                (registrationValues (val "pension") (val (bornYearsAgo 30))
                                    (val emptySchool) null)
                (editValues (val "pension") (val (bornYearsAgo 30)) null null))
      as [Hu _].
    apply Hu; reflexivity.
  - destruct (forms_agree exampleAge 0 [] exampleNow
                (registrationValues (val "general") null (val emptySchool) null)
                (editValues (val "general") (val InvalidDate) (val emptySchool) null))
      as [_ [_ [Hs _]]].
    apply Hs; [reflexivity | discriminate | reflexivity].
Defined.
